(** * processingblocks: processors.py

    A shallow embedding of [SeparateProcess], [ProcessingUnit] and
    [ProcessingCluster] (src/processingblocks/processors.py), together with
    the part of [multiprocessing.Process] those classes drive, and the
    properties of the lifecycle they implement. *)

From Stdlib Require Import ZArith Lia Bool List.
From stdpp Require Import base option gmap strings pretty list.
Import ListNotations.

Set Warnings "-register-all".
Local Open Scope string_scope.
Local Open Scope Z_scope.

(** ** Python values and exceptions *)

(** The values that travel through argument tuples and keyword dictionaries. *)
Inductive pyval : Type :=
| VNone
| VBool (b : bool)
| VInt (n : Z)
| VStr (s : string)
| VFunc (qualname : string)
| VObj (ref : string)
| VTuple (items : list pyval)
| VDict (d : gmap string pyval).

Inductive exn : Type :=
| KeyError (key : string)
| AttributeError (attr : string)
| AssertionError (msg : string)
| ValueError (msg : string)
| TypeError (msg : string)
| OSError
| UserError (msg : string).

(** What a call does: it returns, it raises, or it has not returned (it blocks
    for ever, or the poll budget given to a loop ran out). *)
Inductive result (A : Type) : Type :=
| Ok (a : A)
| Raise (x : exn)
| Pending.
Arguments Ok {A} a.
Arguments Raise {A} x.
Arguments Pending {A}.

(** Entries of the [warnings] channel. *)
Inductive warning : Type :=
| TimeoutWarning (origin : string)
| RunThrough.

(** ** The host: clock, process table, warnings, observable events *)

(** The operating system decides whether a spawn succeeds and for how long the
    child runs ([None]: until it is terminated). *)
Inductive spawn_outcome : Type :=
| SpawnFails
| SpawnRuns (lifetime : option Z).

Inductive method : Type := Run | Start.

Definition method_name (m : method) : string :=
  match m with Run => "run" | Start => "start" end.

(** What code running inside a phase can read off the unit that drives it:
    the unit's [_joined] and [_is_processing] at that moment. *)
Record View : Type := mkView {
  seen_joined : bool;
  seen_processing : bool
}.

(** Observable events.  The body of a setup, task or closure callable starting
    to run is recorded with the view it is given. *)
Inductive event : Type :=
| ESetJoined (b : bool)
| ESetup (awaited : bool) (v : View)
| ETask (m : method) (awaited : bool) (v : View)
| ETargetMethod (m : method)
| EProcessStart (ok : bool)
| ECreateProcess
| EClosure (awaited : bool) (v : View)
| ETaskStop (budget : option (bool * option Z))
| EPoll
| ESleep (interval : Z)
| EHandleJoin (timeout : option Z)
| EHandleJoinAsync (timeout : option Z).

(** The user-visible state that setup, task and closure callables act on. *)
Abbreviation World := (gmap string Z).

Record Env : Type := mkEnv {
  clock : Z;                      (* time.perf_counter(), in ticks *)
  tick : Z;                       (* time taken by one turn of a poll loop *)
  spawns : list spawn_outcome;    (* outcomes of the coming spawn attempts *)
  created : nat;                  (* multiprocessing._process_counter *)
  warned : list warning;          (* warnings.warn, oldest first *)
  trace : list event;             (* observable events, oldest first *)
  world : World
}.

Definition set_clock (t : Z) (e : Env) : Env :=
  mkEnv t (tick e) (spawns e) (created e) (warned e) (trace e) (world e).
Definition set_spawns (l : list spawn_outcome) (e : Env) : Env :=
  mkEnv (clock e) (tick e) l (created e) (warned e) (trace e) (world e).
Definition set_created (n : nat) (e : Env) : Env :=
  mkEnv (clock e) (tick e) (spawns e) n (warned e) (trace e) (world e).
Definition warn (w : warning) (e : Env) : Env :=
  mkEnv (clock e) (tick e) (spawns e) (created e) (warned e ++ [w]) (trace e) (world e).
Definition emit (ev : event) (e : Env) : Env :=
  mkEnv (clock e) (tick e) (spawns e) (created e) (warned e) (trace e ++ [ev]) (world e).
Definition set_world (w : World) (e : Env) : Env :=
  mkEnv (clock e) (tick e) (spawns e) (created e) (warned e) (trace e) w.

(** [await asyncio.sleep(interval)]: a suspension point; the caller resumes no
    sooner than [interval] later. *)
Definition sleep (interval : Z) (e : Env) : Env :=
  emit (ESleep interval) (set_clock (clock e + Z.max interval 0 + tick e) e).

(** ** multiprocessing.Process *)

(** The standard library class the handle wraps, with the behaviour of
    CPython's [BaseProcess] that the handle relies on: an object is in its
    initial state, started (it then holds its child), or closed; [start]
    can be called once; most methods of a closed object raise [ValueError];
    time is counted in ticks of the host clock. *)
Module Process.

(** The child behind a started process object: when it exits of its own
    accord, and with which code. *)
Record Popen : Type := mkPopen {
  exits_at : option Z;
  returncode : Z
}.

(** [_target], [_args] and [_kwargs] are attributes that [start] deletes
    once the child is launched: [None] is an attribute that is gone. *)
Record t : Type := mk {
  _name : string;
  _target : option pyval;
  _args : option (list pyval);
  _kwargs : option (gmap string pyval);
  daemon : bool;
  _popen : option Popen;
  _closed : bool
}.

Definition set_name (n : string) (p : t) : t :=
  mk n (_target p) (_args p) (_kwargs p) (daemon p) (_popen p) (_closed p).
Definition set_target (v : pyval) (p : t) : t :=
  mk (_name p) (Some v) (_args p) (_kwargs p) (daemon p) (_popen p) (_closed p).
Definition set_args (v : list pyval) (p : t) : t :=
  mk (_name p) (_target p) (Some v) (_kwargs p) (daemon p) (_popen p) (_closed p).
Definition set_kwargs (v : gmap string pyval) (p : t) : t :=
  mk (_name p) (_target p) (_args p) (Some v) (daemon p) (_popen p) (_closed p).
Definition set_daemon (b : bool) (p : t) : t :=
  mk (_name p) (_target p) (_args p) (_kwargs p) b (_popen p) (_closed p).
Definition set_popen (c : option Popen) (p : t) : t :=
  mk (_name p) (_target p) (_args p) (_kwargs p) (daemon p) c (_closed p).

(** [Process()]: no target, no arguments, not daemonic, named after the
    process counter. *)
Definition new (e : Env) : t * Env :=
  let n := S (created e) in
  (mk ("Process-" +:+ pretty n) (Some VNone) (Some []) (Some ∅) false None false,
   set_created n e).

(** [Popen.poll()] at time [now]. *)
Definition poll (c : Popen) (now : Z) : option Z :=
  match exits_at c with
  | Some t => if t <=? now then Some (returncode c) else None
  | None => None
  end.

Definition closed_error : exn := ValueError "process object is closed".

Definition exitcode (p : t) (e : Env) : result (option Z) :=
  if _closed p then Raise closed_error
  else match _popen p with
       | None => Ok None
       | Some c => Ok (poll c (clock e))
       end.

Definition is_alive (p : t) (e : Env) : result bool :=
  if _closed p then Raise closed_error
  else match _popen p with
       | None => Ok false
       | Some c => Ok (match poll c (clock e) with Some _ => false | None => true end)
       end.

(** [start()]: refuses a closed or already started object, then asks the
    operating system for a child; on success the launch attributes are
    deleted from the object ([del self._target, self._args, self._kwargs]).
    With no outcome left in [spawns] the child is launched and exits at
    once. *)
Definition start (p : t) (e : Env) : result t * Env :=
  if _closed p then (Raise closed_error, e)
  else match _popen p with
       | Some _ => (Raise (AssertionError "cannot start a process twice"), e)
       | None =>
           match spawns e with
           | SpawnFails :: rest =>
               (Raise OSError, emit (EProcessStart false) (set_spawns rest e))
           | SpawnRuns life :: rest =>
               let c := mkPopen ((fun d => clock e + Z.max d 0) <$> life) 0 in
               (Ok (mk (_name p) None None None (daemon p) (Some c) false),
                emit (EProcessStart true) (set_spawns rest e))
           | [] =>
               let c := mkPopen (Some (clock e)) 0 in
               (Ok (mk (_name p) None None None (daemon p) (Some c) false),
                emit (EProcessStart true) e)
           end
       end.

(** [join(timeout)]: [Popen.wait]; the caller is held until the child has
    exited or the timeout has run out, whichever comes first. *)
Definition join (timeout : option Z) (p : t) (e : Env) : result unit * Env :=
  if _closed p then (Raise closed_error, e)
  else match _popen p with
       | None => (Raise (AssertionError "can only join a started process"), e)
       | Some c =>
           match poll c (clock e) with
           | Some _ => (Ok tt, e)
           | None =>
               match timeout, exits_at c with
               | None, None => (Pending, e)
               | None, Some t => (Ok tt, set_clock t e)
               | Some T, None => (Ok tt, set_clock (clock e + Z.max T 0) e)
               | Some T, Some t =>
                   (Ok tt, set_clock (Z.min t (clock e + Z.max T 0)) e)
               end
           end
       end.

(** [terminate()]: SIGTERM to a child that is still running; the child is
    taken to exit at once. *)
Definition terminate (p : t) (e : Env) : result t :=
  if _closed p then Raise closed_error
  else match _popen p with
       | None => Raise (AttributeError "terminate")
       | Some c =>
           match poll c (clock e) with
           | Some _ => Ok p
           | None => Ok (set_popen (Some (mkPopen (Some (clock e)) (-15))) p)
           end
       end.

(** [close()]: releases the child's resources; refused while it runs. *)
Definition close (p : t) (e : Env) : result t :=
  match _popen p with
  | Some c =>
      match poll c (clock e) with
      | None => Raise (ValueError "Cannot close a process while it is still running")
      | Some _ =>
          Ok (mk (_name p) (_target p) (_args p) (_kwargs p) (daemon p) None true)
      end
  | None =>
      Ok (mk (_name p) (_target p) (_args p) (_kwargs p) (daemon p) None true)
  end.

(** [daemon] setter. *)
Definition assign_daemon (b : bool) (p : t) : result t :=
  match _popen p with
  | None => Ok (set_daemon b p)
  | Some _ => Raise (AssertionError "process has already started")
  end.

End Process.

(** ** Calls that thread a state and may raise *)

(** A method call on an object in state [S]: the state it leaves behind is
    kept whatever the outcome, as mutations made before a Python exception
    are. *)
Definition M (S A : Type) : Type := S -> result A * S.

Definition ret {S A} (a : A) : M S A := fun s => (Ok a, s).

Definition bind {S A B} (m : M S A) (k : A -> M S B) : M S B :=
  fun s =>
    match m s with
    | (Ok a, s') => k a s'
    | (Raise x, s') => (Raise x, s')
    | (Pending, s') => (Pending, s')
    end.

Definition raise {S A} (x : exn) : M S A := fun s => (Raise x, s).

(** [try: m  except: h] with a bare [except]. *)
Definition try_except {S A} (m : M S A) (h : M S A) : M S A :=
  fun s =>
    match m s with
    | (Raise _, s') => h s'
    | r => r
    end.

Definition get {S} : M S S := fun s => (Ok s, s).
Definition modify {S} (f : S -> S) : M S unit := fun s => (Ok tt, f s).
Definition when {S} (b : bool) (m : M S unit) : M S unit :=
  if b then m else ret tt.

Notation "x <- m ;; k" := (bind m (fun x => k))
  (at level 100, m at next level, right associativity, only parsing).
Notation "m ;;; k" := (bind m (fun _ => k))
  (at level 100, right associativity, only parsing).

(** [if kwargs:] on a dictionary. *)
Definition nonempty_dict (d : gmap string pyval) : bool :=
  match map_to_list d with [] => false | _ => true end.


(** [v is None]. *)
Definition is_None (v : pyval) : bool :=
  match v with VNone => true | _ => false end.

Definition pending {S A} : M S A := fun s => (Pending, s).

(** Operations on the host, lifted to a state [X * Env]. *)
Definition host {X} (f : Env -> Env) : M (X * Env) unit :=
  fun '(x, e) => (Ok tt, (x, f e)).
Definition perf_counter {X} : M (X * Env) Z :=
  fun '(x, e) => (Ok (clock e), (x, e)).

(** [elapsed >= timeout] when a timeout was given. *)
Definition timed_out (timeout : option Z) (start_time now : Z) : bool :=
  match timeout with
  | Some T => T <=? now - start_time
  | None => false
  end.

(** ** SeparateProcess *)

Module SeparateProcess.

(** The instance dictionary: [method_wrapper], [_process], and in [attrs]
    every other instance attribute (configuration assigned to the object
    while it wraps no process).  Names the class wraps out of
    [_wrap_attributes = ["_process"]] ([_target], [_args], [_kwargs],
    [daemon], [name], [terminate]) resolve on the wrapped process. *)
Record t : Type := mk {
  method_wrapper : pyval;
  _process : option Process.t;
  attrs : gmap string pyval
}.

Definition set_process_field (p : option Process.t) (self : t) : t :=
  mk (method_wrapper self) p (attrs self).

Definition run_method : pyval := VFunc "run_method".

(** [self._process], for a method call on it: [None] has no methods. *)
Definition the_process (meth : string) : M (t * Env) Process.t :=
  fun '(self, e) =>
    match _process self with
    | Some p => (Ok p, (self, e))
    | None => (Raise (AttributeError meth), (self, e))
    end.

(** Assignment to a wrapped name: on the process when there is one, on the
    object itself otherwise. *)
Definition setattr_wrapped (attr : string) (v : pyval)
    (on_process : Process.t -> result Process.t) : M (t * Env) unit :=
  fun '(self, e) =>
    match _process self with
    | None => (Ok tt, (mk (method_wrapper self) None (<[attr := v]> (attrs self)), e))
    | Some p =>
        match on_process p with
        | Ok p' => (Ok tt, (set_process_field (Some p') self, e))
        | Raise x => (Raise x, (self, e))
        | Pending => (Pending, (self, e))
        end
    end.

(** The configuration read back from the process being replaced
    ("Get previous attributes"): a missing [_target] is tolerated, a missing
    [_args] or [_kwargs] is not. *)
Definition previous_attributes (old : Process.t) (target : pyval)
    (args : list pyval) (kwargs : gmap string pyval) (daemon : option bool)
  : result (pyval * list pyval * gmap string pyval * option bool) :=
  let target :=
    if is_None target then
      match Process._target old with
      | Some v => v
      | None => target            (* except AttributeError: pass *)
      end
    else target in
  let daemon :=
    match daemon with
    | None => Some (Process.daemon old)
    | Some _ => daemon
    end in
  match (match args with [] => Process._args old | _ => Some args end) with
  | None => Raise (AttributeError "_args")
  | Some args =>
      match (if nonempty_dict kwargs then Some kwargs else Process._kwargs old) with
      | None => Raise (AttributeError "_kwargs")
      | Some kwargs => Ok (target, args, kwargs, daemon)
      end
  end.

(** "Set attributes after stashed attributes are set": each value that is
    given is written on the new process. *)
Definition set_attributes (target : pyval) (name : option string)
    (args : list pyval) (kwargs : gmap string pyval) (daemon : option bool)
    (p : Process.t) : Process.t :=
  let p := match name with Some n => Process.set_name n p | None => p end in
  let p := if is_None target then p else Process.set_target target p in
  let p := match daemon with Some b => Process.set_daemon b p | None => p end in
  let p := match args with [] => p | _ => Process.set_args args p end in
  if nonempty_dict kwargs then Process.set_kwargs kwargs p else p.

Definition create_process (target : pyval) (name : option string)
    (args : list pyval) (kwargs : gmap string pyval) (daemon : option bool)
  : M (t * Env) unit :=
  fun '(self, e) =>
    (* Get previous attributes *)
    let prev :=
      match _process self with
      | Some old => previous_attributes old target args kwargs daemon
      | None => Ok (target, args, kwargs, daemon)
      end in
    match prev with
    | Raise x => (Raise x, (self, e))
    | Pending => (Pending, (self, e))
    | Ok (target, args, kwargs, daemon) =>
        (* Create new Process *)
        let '(p, e) := Process.new e in
        (Ok tt, (set_process_field (Some (set_attributes target name args kwargs daemon p)) self,
                 emit ECreateProcess e))
    end.

Definition construct (target : pyval) (name : option string) (args : list pyval)
    (kwargs : gmap string pyval) (daemon : option bool) (delay : bool)
  : M (t * Env) unit :=
  match name with
  | Some n => setattr_wrapped "name" (VStr n) (fun p => Ok (Process.set_name n p))
  | None => ret tt
  end;;;
  if negb delay then create_process target name args kwargs daemon
  else
    when (negb (is_None target))
      (setattr_wrapped "_target" target (fun p => Ok (Process.set_target target p)));;;
    match name with
    | Some n => setattr_wrapped "_name" (VStr n) (fun p => Ok (Process.set_name n p))
    | None => ret tt
    end;;;
    match args with
    | [] => ret tt
    | _ => setattr_wrapped "_args" (VTuple args) (fun p => Ok (Process.set_args args p))
    end;;;
    when (nonempty_dict kwargs)
      (setattr_wrapped "_kwargs" (VDict kwargs) (fun p => Ok (Process.set_kwargs kwargs p)));;;
    match daemon with
    | Some true => setattr_wrapped "daemon" (VBool true) (Process.assign_daemon true)
    | _ => ret tt
    end.

(** [SeparateProcess(target, name, args, kwargs, daemon, delay, init)]. *)
Definition __init__ (target : pyval) (name : option string) (args : list pyval)
    (kwargs : gmap string pyval) (daemon : option bool) (delay init : bool)
    (e : Env) : result t * Env :=
  let self := mk run_method None ∅ in
  if init then
    match construct target name args kwargs daemon delay (self, e) with
    | (Ok _, (self, e)) => (Ok self, e)
    | (Raise x, (_, e)) => (Raise x, e)
    | (Pending, (_, e)) => (Pending, e)
    end
  else (Ok self, e).

Definition is_alive : M (t * Env) bool :=
  fun '(self, e) =>
    match _process self with
    | None => (Ok false, (self, e))
    | Some p => (Process.is_alive p e, (self, e))
    end.

Definition set_process (process : option Process.t) : M (t * Env) unit :=
  fun '(self, e) => (Ok tt, (set_process_field process self, e)).

Definition target_object_method (obj : pyval) (meth : string) (args : list pyval)
    (kwargs : gmap string pyval) : M (t * Env) unit :=
  let kwargs := <["obj" := obj]> kwargs in
  let kwargs := <["method" := VStr meth]> kwargs in
  fun '(self, e) =>
    create_process (method_wrapper self) None args kwargs None (self, e).

(** [self._process.start()]. *)
Definition process_start : M (t * Env) unit :=
  p <- the_process "start";;
  fun '(self, e) =>
    match Process.start p e with
    | (Ok p', e') => (Ok tt, (set_process_field (Some p') self, e'))
    | (Raise x, e') => (Raise x, (self, e'))
    | (Pending, e') => (Pending, (self, e'))
    end.

Definition start : M (t * Env) unit :=
  try_except process_start
    (create_process VNone None [] ∅ None;;; process_start).

Definition process_exitcode : M (t * Env) (option Z) :=
  p <- the_process "exitcode";;
  fun '(self, e) => (Process.exitcode p e, (self, e)).

Definition join (timeout : option Z) : M (t * Env) unit :=
  host (emit (EHandleJoin timeout));;;
  p <- the_process "join";;
  (fun '(self, e) =>
     match Process.join timeout p e with
     | (r, e') => (r, (self, e'))
     end);;;
  code <- process_exitcode;;
  match code with
  | None => host (warn (TimeoutWarning "'join_async'"))
  | Some _ => ret tt
  end.

(** The [while] loop of [join_async]; [polls] bounds the number of turns
    the caller is prepared to sleep through. *)
Fixpoint join_async_loop (polls : nat) (start_time : Z) (timeout : option Z)
    (interval : Z) : M (t * Env) unit :=
  code <- process_exitcode;;
  match code with
  | Some _ => ret tt
  | None =>
      match polls with
      | O => pending
      | S n =>
          host (sleep interval);;;
          now <- perf_counter;;
          if timed_out timeout start_time now
          then host (warn (TimeoutWarning "'join_async'"))
          else join_async_loop n start_time timeout interval
      end
  end.

Definition join_async (polls : nat) (timeout : option Z) (interval : Z)
  : M (t * Env) unit :=
  host (emit (EHandleJoinAsync timeout));;;
  start_time <- perf_counter;;
  join_async_loop polls start_time timeout interval.

(** [self._process.terminate()]. *)
Definition terminate : M (t * Env) unit :=
  p <- the_process "terminate";;
  fun '(self, e) =>
    match Process.terminate p e with
    | Ok p' => (Ok tt, (set_process_field (Some p') self, e))
    | Raise x => (Raise x, (self, e))
    | Pending => (Pending, (self, e))
    end.

Definition process_is_alive : M (t * Env) bool :=
  p <- the_process "is_alive";;
  fun '(self, e) => (Process.is_alive p e, (self, e)).


Definition close : M (t * Env) unit :=
  self <- get;;
  match _process (fst self) with
  | Some _ =>
      alive <- process_is_alive;;
      when alive terminate;;;
      p <- the_process "close";;
      fun '(self, e) =>
        match Process.close p e with
        | Ok p' => (Ok tt, (set_process_field (Some p') self, e))
        | Raise x => (Raise x, (self, e))
        | Pending => (Pending, (self, e))
        end
  | None => ret tt
  end.

(** *** Pickling *)









End SeparateProcess.

(** ** ProcessingUnit *)

Module ProcessingUnit.

Definition behaviour : Type := View -> gmap string pyval -> World -> result World.

(** A setup or closure callable: whether [asyncio.iscoroutinefunction]
    holds of it, and what running it does. *)
Record callable : Type := mkCallable {
  iscoroutinefunction : bool;
  body : behaviour
}.

(** The task object, by the methods the unit calls on it. *)
Record Task : Type := mkTask {
  ref : string;
  task_is_async : bool;
  task_run : behaviour;
  task_start : behaviour;
  task_run_coro : behaviour;
  task_start_coro : behaviour;
  task_stop : option (bool * option Z) -> World -> result World;
  task_reset : World -> result World
}.

Record t : Type := mk {
  name : option string;
  unit_setup_kwargs : gmap string pyval;
  unit_closure_kwargs : gmap string pyval;
  allow_setup : bool;
  allow_closure : bool;
  await_closure : bool;
  separate_process : bool;
  _is_processing : bool;
  process : option SeparateProcess.t;
  _execute_setup : callable;
  _task_object : option Task;
  _execute_closure : callable;
  _joined : bool
}.

Definition with_joined (b : bool) (u : t) : t :=
  mk (name u) (unit_setup_kwargs u) (unit_closure_kwargs u) (allow_setup u)
     (allow_closure u) (await_closure u) (separate_process u) (_is_processing u)
     (process u) (_execute_setup u) (_task_object u) (_execute_closure u) b.
Definition with_is_processing (b : bool) (u : t) : t :=
  mk (name u) (unit_setup_kwargs u) (unit_closure_kwargs u) (allow_setup u)
     (allow_closure u) (await_closure u) (separate_process u) b
     (process u) (_execute_setup u) (_task_object u) (_execute_closure u) (_joined u).
Definition with_process (p : option SeparateProcess.t) (u : t) : t :=
  mk (name u) (unit_setup_kwargs u) (unit_closure_kwargs u) (allow_setup u)
     (allow_closure u) (await_closure u) (separate_process u) (_is_processing u)
     p (_execute_setup u) (_task_object u) (_execute_closure u) (_joined u).
Definition with_task_object (k : option Task) (u : t) : t :=
  mk (name u) (unit_setup_kwargs u) (unit_closure_kwargs u) (allow_setup u)
     (allow_closure u) (await_closure u) (separate_process u) (_is_processing u)
     (process u) (_execute_setup u) k (_execute_closure u) (_joined u).
Definition with_setup (c : callable) (kw : gmap string pyval) (u : t) : t :=
  mk (name u) kw (unit_closure_kwargs u) (allow_setup u)
     (allow_closure u) (await_closure u) (separate_process u) (_is_processing u)
     (process u) c (_task_object u) (_execute_closure u) (_joined u).
Definition with_closure (c : callable) (kw : gmap string pyval) (u : t) : t :=
  mk (name u) (unit_setup_kwargs u) kw (allow_setup u)
     (allow_closure u) (await_closure u) (separate_process u) (_is_processing u)
     (process u) (_execute_setup u) (_task_object u) c (_joined u).

Definition view (u : t) : View := mkView (_joined u) (_is_processing u).

(** [self._joined = b]. *)
Definition set_joined (b : bool) : M (t * Env) unit :=
  fun '(self, e) => (Ok tt, (with_joined b self, emit (ESetJoined b) e)).

(** Running the body of a callable or of a task method on the world. *)
Definition execute (f : behaviour) (kwargs : gmap string pyval) : M (t * Env) unit :=
  fun '(self, e) =>
    match f (view self) kwargs (world e) with
    | Ok w => (Ok tt, (self, set_world w e))
    | Raise x => (Raise x, (self, e))
    | Pending => (Pending, (self, e))
    end.

(** A method of [self.process], the unit's [SeparateProcess]. *)
Definition on_process {A} (meth : string) (m : M (SeparateProcess.t * Env) A)
  : M (t * Env) A :=
  fun '(self, e) =>
    match process self with
    | None => (Raise (AttributeError meth), (self, e))
    | Some sp =>
        match m (sp, e) with
        | (r, (sp', e')) => (r, (with_process (Some sp') self, e'))
        end
    end.

(** The methods [setup] and [closure] of the unit itself only log. *)
Definition setup : callable := mkCallable false (fun _ _ w => Ok w).
Definition closure : callable := mkCallable false (fun _ _ w => Ok w).

Definition is_processing : M (t * Env) bool :=
  fun '(self, e) =>
    match process self with
    | Some sp =>
        if separate_process self then
          match SeparateProcess.is_alive (sp, e) with
          | (Ok b, (sp', e')) =>
              (Ok b, (with_is_processing b (with_process (Some sp') self), e'))
          | (Raise x, (sp', e')) => (Raise x, (with_process (Some sp') self, e'))
          | (Pending, (sp', e')) => (Pending, (with_process (Some sp') self, e'))
          end
        else (Ok (_is_processing self), (self, e))
    | None => (Ok (_is_processing self), (self, e))
    end.

Definition warn_without_message : exn :=
  TypeError "warn() missing 1 required positional argument: 'message'".

(** The [task_object] property. *)
Definition task_object : M (t * Env) (option Task) :=
  busy <- is_processing;;
  if busy then raise warn_without_message
  else (self <- get;; ret (_task_object (fst self))).

Definition set_task_object (value : option Task) : M (t * Env) unit :=
  busy <- is_processing;;
  if busy then raise warn_without_message
  else modify (fun '(self, e) => (with_task_object value self, e)).

(** [self.task_object.<meth>]: [None] has no methods. *)
Definition the_task (meth : string) : M (t * Env) Task :=
  k <- task_object;;
  match k with
  | Some task => ret task
  | None => raise (AttributeError meth)
  end.

Definition new_process (name_arg : option string) (daemon : bool)
    (kwargs : gmap string pyval) : M (t * Env) unit :=
  fun '(self, e) =>
    let name_arg := match name_arg with None => name self | Some _ => name_arg end in
    match SeparateProcess.__init__ VNone name_arg [] kwargs (Some daemon) false true e with
    | (Ok sp, e') => (Ok tt, (with_process (Some sp) self, e'))
    | (Raise x, e') => (Raise x, (self, e'))
    | (Pending, e') => (Pending, (self, e'))
    end.

Definition set_process (p : option SeparateProcess.t) : M (t * Env) unit :=
  modify (fun '(self, e) => (with_process p self, e)).

(** [DEFAULT_TASK] is [None] in this class; subclasses put a task class
    there. *)
Definition default_task_object
    (DEFAULT_TASK : option (option string -> gmap string pyval -> Task))
    (kwargs : gmap string pyval) : M (t * Env) unit :=
  match DEFAULT_TASK with
  | None => raise (TypeError "'NoneType' object is not callable")
  | Some make => self <- get;; set_task_object (Some (make (name (fst self)) kwargs))
  end.

Definition construct
    (DEFAULT_TASK : option (option string -> gmap string pyval -> Task))
    (name_arg : option string) (task : option Task) (to_kwargs : gmap string pyval)
    (daemon : bool) (p_kwargs : gmap string pyval) : M (t * Env) unit :=
  self <- get;;
  when (separate_process (fst self)) (new_process name_arg daemon p_kwargs);;;
  match task with
  | None =>
      k <- task_object;;
      match k with
      | None => default_task_object DEFAULT_TASK to_kwargs
      | Some _ => ret tt
      end
  | Some _ => set_task_object task
  end.

(** [ProcessingUnit(name, task, to_kwargs, separate_process, daemon,
    p_kwargs, allow_setup, allow_closure, init)]. *)
Definition __init__
    (DEFAULT_TASK : option (option string -> gmap string pyval -> Task))
    (name_arg : option string) (task : option Task) (to_kwargs : gmap string pyval)
    (separate : bool) (daemon : bool) (p_kwargs : gmap string pyval)
    (allow_setup_arg allow_closure_arg init : bool) (e : Env) : result t * Env :=
  let self :=
    mk name_arg ∅ ∅ allow_setup_arg allow_closure_arg false
       separate false None setup None closure true in
  if init then
    match construct DEFAULT_TASK name_arg task to_kwargs daemon p_kwargs (self, e) with
    | (Ok _, (self, e)) => (Ok self, e)
    | (Raise x, (_, e)) => (Raise x, e)
    | (Pending, (_, e)) => (Pending, e)
    end
  else (Ok self, e).

Definition is_async : M (t * Env) bool :=
  self <- get;;
  if iscoroutinefunction (_execute_setup (fst self))
     || iscoroutinefunction (_execute_closure (fst self))
  then ret true
  else if negb (separate_process (fst self))
  then (task <- the_task "is_async";; ret (task_is_async task))
  else ret false.

Definition set_setup (func : callable) (kwargs : gmap string pyval) : M (t * Env) unit :=
  modify (fun '(self, e) =>
    (with_setup func (if nonempty_dict kwargs then kwargs else unit_setup_kwargs self) self, e)).

Definition set_closure (func : callable) (kwargs : gmap string pyval) : M (t * Env) unit :=
  modify (fun '(self, e) =>
    (with_closure func (if nonempty_dict kwargs then kwargs else unit_closure_kwargs self) self, e)).

(** *** Phases *)

(** The keyword arguments handed to the task. *)
Definition dispatch_kwargs (s_kwargs t_kwargs c_kwargs : gmap string pyval)
  : gmap string pyval :=
  <["c_kwargs" := VDict c_kwargs]>
    (<["t_kwargs" := VDict t_kwargs]> (<["s_kwargs" := VDict s_kwargs]> ∅)).

(** The body of a callable starts running: the event is recorded at that
    moment. *)
Definition run_body (ev : View -> event) (f : behaviour) (kwargs : gmap string pyval)
  : M (t * Env) unit :=
  self <- get;;
  host (emit (ev (view (fst self))));;;
  execute f kwargs.

(** A plain call, as in the blocking paths: a coroutine function called
    this way only builds a coroutine object, its body never runs. *)
Definition call (ev : View -> event) (c : callable) (kwargs : gmap string pyval)
  : M (t * Env) unit :=
  if iscoroutinefunction c then ret tt else run_body ev (body c) kwargs.

Definition task_value (k : option Task) : pyval :=
  match k with
  | Some task => VObj (ref task)
  | None => VNone
  end.

(** The task phase in a separate process: bind the task's method as the
    target, then start the process. *)
Definition remote_task (m : method) (kwargs : gmap string pyval) : M (t * Env) unit :=
  self <- get;;
  match process (fst self) with
  | None => raise (AttributeError "target_object_method")
  | Some _ =>
      k <- task_object;;
      host (emit (ETargetMethod m));;;
      on_process "target_object_method"
        (SeparateProcess.target_object_method (task_value k) (method_name m) [] kwargs);;;
      on_process "start" SeparateProcess.start
  end.

(** [warnings.warn(message, category)]: a string is not a warning
    category. *)
Definition run_through_warning (category : option string) : M (t * Env) unit :=
  match category with
  | Some _ => raise (TypeError "category must be a Warning subclass, not 'str'")
  | None => host (warn RunThrough)
  end.

(** *** Normal execution methods *)

Definition run_normal (s_kwargs t_kwargs c_kwargs : gmap string pyval)
  : M (t * Env) unit :=
  set_joined false;;;
  let kwargs := dispatch_kwargs s_kwargs t_kwargs c_kwargs in
  (* Optionally run Setup *)
  self <- get;;
  when (allow_setup (fst self))
    (call (ESetup false) (_execute_setup (fst self)) (unit_setup_kwargs (fst self)));;;
  (* Run Task *)
  self <- get;;
  (if separate_process (fst self) then remote_task Run kwargs
   else task <- the_task "run";; run_body (ETask Run false) (task_run task) kwargs);;;
  (* Optionally run Closure *)
  self <- get;;
  when (allow_closure (fst self))
    ((if separate_process (fst self) then
        if await_closure (fst self)
        then on_process "join" (SeparateProcess.join None)
        else run_through_warning (name (fst self))
      else ret tt);;;
     self <- get;;
     call (EClosure false) (_execute_closure (fst self)) (unit_closure_kwargs (fst self)));;;
  set_joined true.

Definition start_normal (s_kwargs t_kwargs c_kwargs : gmap string pyval)
  : M (t * Env) unit :=
  set_joined false;;;
  let kwargs := dispatch_kwargs s_kwargs t_kwargs c_kwargs in
  (* Optionally run Setup *)
  self <- get;;
  when (allow_setup (fst self))
    (call (ESetup false) (_execute_setup (fst self)) (unit_setup_kwargs (fst self)));;;
  (* Run Task *)
  self <- get;;
  (if separate_process (fst self) then remote_task Start kwargs
   else task <- the_task "start";; run_body (ETask Start false) (task_start task) kwargs);;;
  (* Optionally run Closure *)
  self <- get;;
  when (allow_closure (fst self))
    ((if separate_process (fst self) then
        if await_closure (fst self)
        then on_process "join" (SeparateProcess.join None)
        else run_through_warning None
      else ret tt);;;
     self <- get;;
     call (EClosure false) (_execute_closure (fst self)) (unit_closure_kwargs (fst self)));;;
  set_joined true.

(** *** Async execute methods *)

(** [await c(...)] for a coroutine function, a plain call otherwise: the
    body runs either way. *)
Definition await_or_call (ev : bool -> View -> event) (c : callable)
    (kwargs : gmap string pyval) : M (t * Env) unit :=
  if iscoroutinefunction c then run_body (ev true) (body c) kwargs
  else run_body (ev false) (body c) kwargs.

(** The closure block of the coroutines; [polls] bounds the turns of
    [join_async]. *)
Definition closure_coro (polls : nat) : M (t * Env) unit :=
  self <- get;;
  when (allow_closure (fst self))
    ((if separate_process (fst self) then
        if await_closure (fst self)
        then on_process "join_async" (SeparateProcess.join_async polls None 0)
        else host (warn RunThrough)
      else ret tt);;;
     self <- get;;
     await_or_call EClosure (_execute_closure (fst self)) (unit_closure_kwargs (fst self))).

Definition run_coro (polls : nat) (s_kwargs t_kwargs c_kwargs : gmap string pyval)
  : M (t * Env) unit :=
  set_joined false;;;
  let kwargs := dispatch_kwargs s_kwargs t_kwargs c_kwargs in
  (* Optionally run Setup *)
  self <- get;;
  when (allow_setup (fst self))
    (await_or_call ESetup (_execute_setup (fst self)) (unit_setup_kwargs (fst self)));;;
  (* Run Task *)
  self <- get;;
  (if separate_process (fst self) then remote_task Run kwargs
   else
     probe <- the_task "is_async";;
     (if task_is_async probe
      then task <- the_task "run_coro";; run_body (ETask Run true) (task_run_coro task) kwargs
      else task <- the_task "run";; run_body (ETask Run false) (task_run task) kwargs);;;
     (* Optionally run Closure: this block sits inside the in-process branch *)
     closure_coro polls);;;
  set_joined true.

Definition start_coro (polls : nat) (s_kwargs t_kwargs c_kwargs : gmap string pyval)
  : M (t * Env) unit :=
  set_joined false;;;
  let kwargs := dispatch_kwargs s_kwargs t_kwargs c_kwargs in
  (* Optionally run Setup *)
  self <- get;;
  when (allow_setup (fst self))
    (await_or_call ESetup (_execute_setup (fst self)) (unit_setup_kwargs (fst self)));;;
  (* Run Task *)
  self <- get;;
  (if separate_process (fst self) then remote_task Start kwargs
   else
     probe <- the_task "is_async";;
     if task_is_async probe
     then task <- the_task "start_coro";; run_body (ETask Start true) (task_start_coro task) kwargs
     else task <- the_task "start";; run_body (ETask Start false) (task_start task) kwargs);;;
  (* Optionally run Closure *)
  closure_coro polls;;;
  set_joined true.

(** *** Execution *)

(** [asyncio.run(coro)] runs the coroutine to its end on the calling
    thread. *)
Definition run (polls : nat) (s_kwargs t_kwargs c_kwargs : gmap string pyval)
  : M (t * Env) unit :=
  cooperative <- is_async;;
  if cooperative then run_coro polls s_kwargs t_kwargs c_kwargs
  else run_normal s_kwargs t_kwargs c_kwargs.

Definition start (polls : nat) (s_kwargs t_kwargs c_kwargs : gmap string pyval)
  : M (t * Env) unit :=
  cooperative <- is_async;;
  if cooperative then start_coro polls s_kwargs t_kwargs c_kwargs
  else start_normal s_kwargs t_kwargs c_kwargs.

(** [asyncio.create_task(coro)]: the coroutine is handed to the event loop
    and nothing of it has run when the call returns. *)
Definition run_async_task (polls : nat) (s_kwargs t_kwargs c_kwargs : gmap string pyval)
  : M (t * Env) (M (t * Env) unit) :=
  ret (run_coro polls s_kwargs t_kwargs c_kwargs).

Definition start_async_task (polls : nat) (s_kwargs t_kwargs c_kwargs : gmap string pyval)
  : M (t * Env) (M (t * Env) unit) :=
  ret (start_coro polls s_kwargs t_kwargs c_kwargs).

(** One turn of the busy loop of [join]. *)
Definition poll_turn (e : Env) : Env :=
  emit EPoll (set_clock (clock e + tick e) e).

(** [while not self._joined]: [true] when the loop is left because the
    flag is set, [false] when the timeout check returns from [join]. *)
Fixpoint join_loop (polls : nat) (start_time : Z) (timeout : option Z)
  : M (t * Env) bool :=
  self <- get;;
  if _joined (fst self) then ret true
  else
    match polls with
    | O => pending
    | S n =>
        host poll_turn;;;
        now <- perf_counter;;
        if timed_out timeout start_time now then ret false
        else join_loop n start_time timeout
    end.

Definition remaining (timeout : option Z) (start_time now : Z) : option Z :=
  (fun T => T - (now - start_time)) <$> timeout.

Definition join (polls : nat) (timeout : option Z) : M (t * Env) unit :=
  start_time <- perf_counter;;
  joined <- join_loop polls start_time timeout;;
  if joined then
    now <- perf_counter;;
    let timeout := remaining timeout start_time now in
    self <- get;;
    when (separate_process (fst self))
      (on_process "join" (SeparateProcess.join timeout))
  else ret tt.

Fixpoint join_async_loop (polls : nat) (start_time : Z) (timeout : option Z)
    (interval : Z) : M (t * Env) bool :=
  self <- get;;
  if _joined (fst self) then ret true
  else
    match polls with
    | O => pending
    | S n =>
        host (sleep interval);;;
        now <- perf_counter;;
        if timed_out timeout start_time now then ret false
        else join_async_loop n start_time timeout interval
    end.

Definition join_async (polls : nat) (timeout : option Z) (interval : Z)
  : M (t * Env) unit :=
  start_time <- perf_counter;;
  joined <- join_async_loop polls start_time timeout interval;;
  if joined then
    now <- perf_counter;;
    let timeout := remaining timeout start_time now in
    self <- get;;
    when (separate_process (fst self))
      (on_process "join_async" (SeparateProcess.join_async polls timeout interval))
  else ret tt.

(** [self._task_object.stop(...)]: the attribute, not the property. *)
Definition stop_task (budget : option (bool * option Z)) : M (t * Env) unit :=
  fun '(self, e) =>
    match _task_object self with
    | None => (Raise (AttributeError "stop"), (self, e))
    | Some task =>
        match task_stop task budget (world e) with
        | Ok w => (Ok tt, (self, set_world w (emit (ETaskStop budget) e)))
        | Raise x => (Raise x, (self, emit (ETaskStop budget) e))
        | Pending => (Pending, (self, emit (ETaskStop budget) e))
        end
    end.

Definition stop (polls : nat) (join_arg : bool) (timeout : option Z) : M (t * Env) unit :=
  stop_task None;;;
  when join_arg (join polls timeout).

Definition stop_async (polls : nat) (join_arg : bool) (timeout : option Z)
    (interval : Z) : M (t * Env) unit :=
  stop_task None;;;
  when join_arg (join_async polls timeout interval).

Definition reset : M (t * Env) unit :=
  task <- the_task "reset";;
  fun '(self, e) =>
    match task_reset task (world e) with
    | Ok w => (Ok tt, (self, set_world w e))
    | Raise x => (Raise x, (self, e))
    | Pending => (Pending, (self, e))
    end.

Definition terminate : M (t * Env) unit :=
  self <- get;;
  when (separate_process (fst self))
    (on_process "terminate" SeparateProcess.terminate).

End ProcessingUnit.

(** ** ProcessingCluster *)

Module ProcessingCluster.

(** A cluster is a unit whose task object is a collection of sub-units; it
    adds no state of its own. *)
Definition stop (polls : nat) (join_arg : bool) (timeout : option Z)
  : M (ProcessingUnit.t * Env) unit :=
  ProcessingUnit.stop_task (Some (join_arg, timeout));;;
  when join_arg (ProcessingUnit.join polls timeout).

Definition stop_async (polls : nat) (join_arg : bool) (timeout : option Z)
    (interval : Z) : M (ProcessingUnit.t * Env) unit :=
  ProcessingUnit.stop_task (Some (join_arg, timeout));;;
  when join_arg (ProcessingUnit.join_async polls timeout interval).

(** [ProcessingCluster(name, task, to_kwargs, separate_process, daemon,
    p_kwargs, allow_setup, allow_closure, init)]: the parent initialiser is
    run with [init=False], then [self.construct(name)] is called with the
    name alone. *)
Definition __init__
    (DEFAULT_TASK : option (option string -> gmap string pyval -> ProcessingUnit.Task))
    (name_arg : option string) (task : option ProcessingUnit.Task)
    (to_kwargs : gmap string pyval) (separate : bool) (daemon : bool)
    (p_kwargs : gmap string pyval) (allow_setup_arg allow_closure_arg init : bool)
    (e : Env) : result ProcessingUnit.t * Env :=
  match ProcessingUnit.__init__ DEFAULT_TASK name_arg task to_kwargs separate daemon
          p_kwargs allow_setup_arg allow_closure_arg false e with
  | (Ok self, e) =>
      if init then
        match ProcessingUnit.construct DEFAULT_TASK name_arg None ∅ false ∅ (self, e) with
        | (Ok _, (self, e)) => (Ok self, e)
        | (Raise x, (_, e)) => (Raise x, e)
        | (Pending, (_, e)) => (Pending, e)
        end
      else (Ok self, e)
  | other => other
  end.

End ProcessingCluster.

(** ** Concrete hosts, handles and units used in the statements below *)

Module Scenario.

(** A quiet host at time 0 whose poll loops take one tick a turn. *)
Definition host0 : Env := mkEnv 0 1 [] 0 [] [] ∅.

(** The same host, where the next child runs until it is terminated. *)
Definition host_long : Env := mkEnv 0 1 [SpawnRuns None] 0 [] [] ∅.

Definition worker : pyval := VFunc "worker".
Definition level : gmap string pyval := {[ "level" := VStr "INFO" ]}.

Definition returned {X} (r : result X * Env) : bool :=
  match r with
  | (Ok _, _) => true
  | _ => false
  end.

Definition value_of {X} (r : result X * Env) (default : X) : X :=
  match r with
  | (Ok x, _) => x
  | _ => default
  end.

Definition blank : SeparateProcess.t :=
  SeparateProcess.mk SeparateProcess.run_method None ∅.

(** Runs a method on the object a previous step returned. *)
Definition then_ {X A} (r : result X * Env) (m : M (X * Env) A) : result X * Env :=
  match r with
  | (Ok x, e) =>
      match m (x, e) with
      | (Ok _, (x', e')) => (Ok x', e')
      | (Raise a, (_, e')) => (Raise a, e')
      | (Pending, (_, e')) => (Pending, e')
      end
  | other => other
  end.

(** [SeparateProcess(target=worker, name="p", args=(1,), kwargs={"level": "INFO"})]. *)
Definition made (e : Env) : result SeparateProcess.t * Env :=
  SeparateProcess.__init__ worker (Some "p") [VInt 1] level None false true e.

Definition handle0 : SeparateProcess.t := value_of (made host0) blank.
Definition host1 : Env := snd (made host0).

(** ... after [start()], the child having run to completion. *)
Definition started : result SeparateProcess.t * Env :=
  then_ (made host0) SeparateProcess.start.
Definition handle_started : SeparateProcess.t := value_of started blank.
Definition host_started : Env := snd started.

(** ... after [start()] of a child that keeps running. *)
Definition running : result SeparateProcess.t * Env :=
  then_ (made host_long) SeparateProcess.start.
Definition handle_running : SeparateProcess.t := value_of running blank.
Definition host_running : Env := snd running.



(** A host on which the next two spawns fail. *)
Definition host_failing : Env := set_spawns [SpawnFails; SpawnFails] host1.

(** A host on which the next spawn fails and the one after succeeds. *)
Definition host_flaky : Env := set_spawns [SpawnFails; SpawnRuns None] host1.



End Scenario.

Module UnitScenario.
Import ProcessingUnit.

(** A phase that counts: it raises the counter and notes, under its own
    name, the value the counter then has. *)
Definition phase (k : string) : behaviour :=
  fun _ _ w =>
    let n := default 0 (w !! "counter") + 1 in
    Ok (<[k := n]> (<["counter" := n]> w)).

Definition quiet : World -> result World := fun w => Ok w.

Definition task : Task :=
  mkTask "task" false (phase "task") (phase "task") (phase "task") (phase "task")
    (fun _ w => Ok w) quiet.

Definition blank : t :=
  mk None ∅ ∅ false false false false false None setup None closure true.

(** [ProcessingUnit(name, task, separate_process, allow_setup=True,
    allow_closure=True)] followed by [set_setup] and [set_closure]. *)
Definition build (name_arg : option string) (separate coroutines : bool) (e : Env)
  : result t * Env :=
  Scenario.then_
    (Scenario.then_
       (__init__ None name_arg (Some task) ∅ separate false ∅ true true true e)
       (set_setup (mkCallable coroutines (phase "setup")) ∅))
    (set_closure (mkCallable coroutines (phase "closure")) ∅).

(** Units as the constructor leaves them, in each mode. *)
Definition made_local : result t * Env :=
  __init__ None (Some "unit") (Some task) ∅ false false ∅ true true true Scenario.host0.
Definition new_local_unit : t := Scenario.value_of made_local blank.

Definition made_remote : result t * Env :=
  __init__ None (Some "unit") (Some task) ∅ true false ∅ true true true Scenario.host0.
Definition new_remote_unit : t := Scenario.value_of made_remote blank.
Definition new_remote_host : Env := snd made_remote.

(** In-process, plain callables. *)
Definition local_unit : t :=
  Scenario.value_of (build (Some "unit") false false Scenario.host0) blank.
Definition local_host : Env := snd (build (Some "unit") false false Scenario.host0).

(** Separate process, coroutine callables: the cooperative paths. *)
Definition remote_unit : t :=
  Scenario.value_of (build (Some "unit") true true Scenario.host_long) blank.
Definition remote_host : Env := snd (build (Some "unit") true true Scenario.host_long).

(** Separate process, plain callables: the blocking paths. *)
Definition remote_plain_unit : t :=
  Scenario.value_of (build (Some "unit") true false Scenario.host_long) blank.
Definition remote_plain_host : Env :=
  snd (build (Some "unit") true false Scenario.host_long).

(** A unit in separate-process mode after a first [start], the child having
    run to completion. *)
Definition dispatched : result t * Env :=
  Scenario.then_ (build (Some "unit") true false Scenario.host0) (start 5 ∅ ∅ ∅).
Definition dispatched_unit : t := Scenario.value_of dispatched blank.
Definition dispatched_host : Env := snd dispatched.
Definition dispatched_handle : SeparateProcess.t :=
  default Scenario.blank (process dispatched_unit).
Definition dispatched_process : Process.t :=
  default (fst (Process.new Scenario.host0)) (SeparateProcess._process dispatched_handle).

(** The same unit after a first [start] on a host where the child keeps
    running. *)
Definition busy : result t * Env :=
  Scenario.then_ (build (Some "unit") true false Scenario.host_long) (start 5 ∅ ∅ ∅).
Definition busy_unit : t := Scenario.value_of busy blank.
Definition busy_host : Env := snd busy.
Definition busy_handle : SeparateProcess.t :=
  default Scenario.blank (process busy_unit).
Definition busy_process : Process.t :=
  default (fst (Process.new Scenario.host0)) (SeparateProcess._process busy_handle).

(** The world after the counting phases named have run in turn on an empty
    world. *)
Definition counted (ks : list string) : World :=
  fold_left (fun w k => match phase k (mkView false false) ∅ w with
                        | Ok w' => w'
                        | _ => w
                        end) ks ∅.

Definition outcome {A S} (out : result A * (S * Env))
  : result A * list event * list warning :=
  (fst out, trace (snd (snd out)), warned (snd (snd out))).
End UnitScenario.

(** ** Predicates used in the statements *)

(** [preserves P m]: whatever [m] does, a state satisfying [P] is left in a
    state satisfying [P]. *)
Definition preserves {S A} (P : S -> Prop) (m : M S A) : Prop :=
  forall s, P s -> P (snd (m s)).

(** No method of the class stores anything under ["__process"]: the
    constructor leaves no such attribute. *)
Definition no_dunder_process (s : SeparateProcess.t * Env) : Prop :=
  SeparateProcess.attrs (fst s) !! "__process" = None.

Definition timeout_warning : warning := TimeoutWarning "'join_async'".

(** A handle on a process that has been started and not closed. *)
Definition wraps_started (self : SeparateProcess.t) (c : Process.Popen) : Prop :=
  exists p, SeparateProcess._process self = Some p /\
            Process._closed p = false /\ Process._popen p = Some c.

(** The view recorded with a phase event. *)
Definition phase_view (ev : event) : option View :=
  match ev with
  | ESetup _ v | ETask _ _ v | EClosure _ v => Some v
  | _ => None
  end.

Definition sees_processing (b : bool) (ev : event) : Prop :=
  forall v, phase_view ev = Some v -> seen_processing v = b.

(** An in-process unit whose [_is_processing] is [b], on a host where every
    phase recorded so far was shown [b]. *)
Definition in_process_with (b : bool) (s : ProcessingUnit.t * Env) : Prop :=
  ProcessingUnit.separate_process (fst s) = false /\
  ProcessingUnit._is_processing (fst s) = b /\
  Forall (sees_processing b) (trace (snd s)).

(** Events that announce a phase with the view it is given. *)
Definition phase_event (ev : View -> event) : Prop :=
  forall v, phase_view (ev v) = Some v.

(** The six ways a dispatch reaches the phases of a unit. *)
Definition dispatches (polls : nat) (s t c : gmap string pyval)
  : list (M (ProcessingUnit.t * Env) unit) :=
  [ ProcessingUnit.run polls s t c; ProcessingUnit.start polls s t c;
    ProcessingUnit.run_coro polls s t c; ProcessingUnit.start_coro polls s t c;
    ProcessingUnit.run_normal s t c; ProcessingUnit.start_normal s t c ].

(** A unit nothing has been dispatched on: joined, in the mode it was built
    for, and without a process handle unless that mode asks for one. *)
Definition undispatched (separate : bool) (s : ProcessingUnit.t * Env) : Prop :=
  ProcessingUnit._joined (fst s) = true /\
  ProcessingUnit.separate_process (fst s) = separate /\
  (separate = false -> ProcessingUnit.process (fst s) = None).

(** The trace only grows: it still starts with [base]. *)
Definition extends {X} (base : list event) (s : X * Env) : Prop :=
  exists evs, trace (snd s) = (base ++ evs)%list.

(** A handle on a process that has been started and not closed, and has
    therefore lost its launch attributes. *)
Definition wraps_launched (self : SeparateProcess.t) (c : Process.Popen) : Prop :=
  exists p, SeparateProcess._process self = Some p /\
            Process._closed p = false /\ Process._popen p = Some c /\
            Process._args p = None.

(** A unit in separate-process mode whose process has been launched. *)
Definition launched_unit (sp : SeparateProcess.t) (s : ProcessingUnit.t * Env) : Prop :=
  ProcessingUnit.separate_process (fst s) = true /\
  ProcessingUnit.process (fst s) = Some sp.

(** ... in the middle of a dispatch. *)
Definition launched_unjoined (sp : SeparateProcess.t) (s : ProcessingUnit.t * Env) : Prop :=
  launched_unit sp s /\ ProcessingUnit._joined (fst s) = false.

(** [m] never returns normally from a state satisfying [Q], and leaves
    such a state in [Q]. *)
Definition fails_from {S A} (Q : S -> Prop) (m : M S A) : Prop :=
  forall s, Q s -> (forall a, fst (m s) <> Ok a) /\ Q (snd (m s)).

(** The attributes [ProcessingUnit.__init__] assigns before it calls
    [construct]. *)
Definition unit_before_construct (name_arg : option string)
    (separate allow_setup_arg allow_closure_arg : bool) : ProcessingUnit.t :=
  ProcessingUnit.mk name_arg ∅ ∅ allow_setup_arg allow_closure_arg false
    separate false None ProcessingUnit.setup None ProcessingUnit.closure true.

(** What the constructor of a unit has built when it reaches the task: in
    separate-process mode, and only then, a handle on a process that has
    not been started, made on host [e]. *)
Definition unit_process_built (name_arg : option string) (separate daemon : bool)
    (p_kwargs : gmap string pyval) (e : Env) (u : ProcessingUnit.t) (e' : Env) : Prop :=
  match ProcessingUnit.process u with
  | None => separate = false /\ e' = e
  | Some sp =>
      separate = true /\
      e' = emit ECreateProcess (set_created (S (created e)) e) /\
      exists p, SeparateProcess._process sp = Some p /\
                Process._target p = Some VNone /\
                Process._args p = Some [] /\
                Process._kwargs p = Some p_kwargs /\
                Process.daemon p = daemon /\
                Process._name p
                  = default ("Process-" +:+ pretty (S (created e))) name_arg /\
                SeparateProcess.is_alive (sp, e') = (Ok false, (sp, e'))
  end.

(** The four methods that drive the phases themselves; [run] and [start]
    choose among them. *)
Definition phase_drivers (polls : nat) (s t c : gmap string pyval)
  : list (M (ProcessingUnit.t * Env) unit) :=
  [ ProcessingUnit.run_normal s t c; ProcessingUnit.start_normal s t c;
    ProcessingUnit.run_coro polls s t c; ProcessingUnit.start_coro polls s t c ].

(** The joined flag is down. *)
Definition unjoined (s : ProcessingUnit.t * Env) : Prop :=
  ProcessingUnit._joined (fst s) = false.

(** [m], started with the flag down, raises the flag exactly when it
    returns normally. *)
Definition raises_flag_on_return {A} (m : M (ProcessingUnit.t * Env) A) : Prop :=
  forall s, unjoined s ->
    match fst (m s) with
    | Ok _ => ProcessingUnit._joined (fst (snd (m s))) = true
    | _ => unjoined (snd (m s))
    end.

(** [ProcessingUnit.run] or [ProcessingUnit.start]. *)
Definition dispatch (m : method) (polls : nat) (s t c : gmap string pyval)
  : M (ProcessingUnit.t * Env) unit :=
  match m with
  | Run => ProcessingUnit.run polls s t c
  | Start => ProcessingUnit.start polls s t c
  end.

(** The method of the task an in-process dispatch ends up calling. *)
Definition task_behaviour (m : method) (task : ProcessingUnit.Task)
  : ProcessingUnit.behaviour :=
  match m, ProcessingUnit.task_is_async task with
  | Run, true => ProcessingUnit.task_run_coro task
  | Run, false => ProcessingUnit.task_run task
  | Start, true => ProcessingUnit.task_start_coro task
  | Start, false => ProcessingUnit.task_start task
  end.

(** A setup or closure phase, which runs only when allowed. *)
Definition optional_phase (allowed : bool) (c : ProcessingUnit.callable) (v : View)
    (kwargs : gmap string pyval) (w : World) : result World :=
  if allowed then ProcessingUnit.body c v kwargs w else Ok w.

(** What the phases of a dispatch can read off the unit: the joined flag
    is down, the processing flag is whatever was stored. *)
Definition dispatch_view (u : ProcessingUnit.t) : View :=
  mkView false (ProcessingUnit._is_processing u).

(** A handle on a process that has not been started and still carries its
    positional arguments. *)
Definition wraps_unstarted (self : SeparateProcess.t) : Prop :=
  exists p a, SeparateProcess._process self = Some p /\
              Process._closed p = false /\ Process._popen p = None /\
              Process._args p = Some a.

(** The next attempt to spawn a child succeeds. *)
Definition spawn_succeeds (e : Env) : Prop :=
  forall rest, spawns e <> SpawnFails :: rest.

(** The host once a unit has bound a method of its task as the target and
    started the process, both at the first attempt. *)
Definition launched_host (m : method) (e : Env) : Env :=
  mkEnv (clock e) (tick e) (tl (spawns e)) (S (created e)) (warned e)
    (trace e ++ [ETargetMethod m; ECreateProcess; EProcessStart true]) (world e).

(** The unit after such a launch, holding the handle [sp]. *)
Definition launched_with (sp : SeparateProcess.t) (u : ProcessingUnit.t)
  : ProcessingUnit.t :=
  ProcessingUnit.with_process (Some sp) (ProcessingUnit.with_is_processing false u).

(** Either callable is a coroutine function. *)
Definition cooperative (u : ProcessingUnit.t) : bool :=
  ProcessingUnit.iscoroutinefunction (ProcessingUnit._execute_setup u)
  || ProcessingUnit.iscoroutinefunction (ProcessingUnit._execute_closure u).

(** * Properties *)

(** ** Frame reasoning for calls *)

Lemma preserves_ret {S A} (P : S -> Prop) (a : A) : preserves P (ret a).
Proof. intros s H. exact H. Qed.

Lemma preserves_raise {S A} (P : S -> Prop) (x : exn) : preserves P (@raise S A x).
Proof. intros s H. exact H. Qed.

Lemma preserves_pending {S A} (P : S -> Prop) : preserves P (@pending S A).
Proof. intros s H. exact H. Qed.

Lemma preserves_get {S} (P : S -> Prop) : preserves P get.
Proof. intros s H. exact H. Qed.

Lemma preserves_bind {S A B} (P : S -> Prop) (m : M S A) (k : A -> M S B) :
  preserves P m -> (forall a, preserves P (k a)) -> preserves P (bind m k).
Proof.
  intros Hm Hk s Hs. unfold bind.
  specialize (Hm s Hs). destruct (m s) as [[a | x |] s']; simpl in *; auto.
  apply Hk. exact Hm.
Qed.

Lemma preserves_when {S} (P : S -> Prop) (b : bool) (m : M S unit) :
  preserves P m -> preserves P (when b m).
Proof. intros Hm. destruct b; simpl; [exact Hm | apply preserves_ret]. Qed.

Lemma preserves_try_except {S A} (P : S -> Prop) (m h : M S A) :
  preserves P m -> preserves P h -> preserves P (try_except m h).
Proof.
  intros Hm Hh s Hs. unfold try_except.
  specialize (Hm s Hs). destruct (m s) as [[a | x |] s']; simpl in *; auto.
Qed.

Lemma preserves_host {X} (P : X * Env -> Prop) (f : Env -> Env) :
  (forall x e, P (x, e) -> P (x, f e)) -> preserves P (host f).
Proof. intros H [x e] Hs. simpl. auto. Qed.

Lemma preserves_perf_counter {X} (P : X * Env -> Prop) : preserves P perf_counter.
Proof. intros [x e] Hs. exact Hs. Qed.

Create HintDb frame.
#[export] Hint Resolve preserves_ret preserves_raise preserves_pending preserves_get
  preserves_when preserves_try_except preserves_perf_counter : frame.

Ltac frame_step :=
  first
    [ apply preserves_bind; [| intros ?]
    | apply preserves_when
    | apply preserves_try_except
    | apply preserves_ret
    | apply preserves_raise
    | apply preserves_pending
    | apply preserves_get
    | apply preserves_perf_counter ].

(** ** Facts about [multiprocessing.Process] *)

Lemma nonempty_dict_false (d : gmap string pyval) : nonempty_dict d = false -> d = ∅.
Proof.
  unfold nonempty_dict. destruct (map_to_list d) eqn:E; [| discriminate].
  intros _. by apply map_to_list_empty_iff.
Qed.

(** A process object that [start] has launched no longer carries its launch
    attributes, and holds its child. *)
Lemma Process_start_strips (p p' : Process.t) (e e' : Env) :
  Process.start p e = (Ok p', e') ->
  Process._target p' = None /\ Process._args p' = None /\
  Process._kwargs p' = None /\ is_Some (Process._popen p') /\
  Process._closed p' = false /\
  Process._name p' = Process._name p /\ Process.daemon p' = Process.daemon p.
Proof.
  unfold Process.start. intros H.
  destruct (Process._closed p); [discriminate |].
  destruct (Process._popen p); [discriminate |].
  destruct (spawns e) as [| [| life] rest]; inversion H; subst; simpl;
    repeat split; eauto.
Qed.

(** ** SeparateProcess: pickling *)


Lemma setattr_wrapped_no_dunder attr v f :
  attr <> "__process" ->
  preserves no_dunder_process (SeparateProcess.setattr_wrapped attr v f).
Proof.
  intros Hne [self e] H. unfold SeparateProcess.setattr_wrapped, no_dunder_process in *.
  simpl in *. destruct (SeparateProcess._process self) as [p |]; simpl.
  - destruct (f p); simpl; exact H.
  - rewrite lookup_insert_ne by exact Hne. exact H.
Qed.

Lemma create_process_no_dunder target name args kwargs daemon :
  preserves no_dunder_process
    (SeparateProcess.create_process target name args kwargs daemon).
Proof.
  intros [self e] H. unfold SeparateProcess.create_process, no_dunder_process in *.
  simpl in *.
  destruct (SeparateProcess._process self) as [old |]; simpl.
  - destruct (SeparateProcess.previous_attributes old target args kwargs daemon)
      as [[[[tg a] k] d] | x |]; simpl; exact H.
  - exact H.
Qed.

Lemma construct_no_dunder target name args kwargs daemon delay :
  preserves no_dunder_process
    (SeparateProcess.construct target name args kwargs daemon delay).
Proof.
  unfold SeparateProcess.construct.
  apply preserves_bind.
  - destruct name; [apply setattr_wrapped_no_dunder; discriminate | apply preserves_ret].
  - intros _. destruct delay; simpl; [| apply create_process_no_dunder].
    repeat frame_step;
      repeat match goal with
             | |- preserves _ (match ?x with _ => _ end) => destruct x
             end;
      try apply preserves_ret;
      apply setattr_wrapped_no_dunder; discriminate.
Qed.

Lemma init_no_dunder target name args kwargs daemon delay init e self e' :
  SeparateProcess.__init__ target name args kwargs daemon delay init e = (Ok self, e') ->
  SeparateProcess.attrs self !! "__process" = None.
Proof.
  unfold SeparateProcess.__init__. intros H.
  destruct init.
  - pose proof (construct_no_dunder target name args kwargs daemon delay
                  (SeparateProcess.mk SeparateProcess.run_method None ∅, e)) as P.
    destruct (SeparateProcess.construct target name args kwargs daemon delay
                (SeparateProcess.mk SeparateProcess.run_method None ∅, e))
      as [[u | x |] [s1 e1]]; inversion H; subst.
    apply P. reflexivity.
  - inversion H; subst. reflexivity.
Qed.



(** ** SeparateProcess: creating and starting the process *)

Lemma set_attributes_spec (target : pyval) (name : option string) (args : list pyval)
    (kwargs : gmap string pyval) (daemon : option bool) (p : Process.t) :
  Process._target p = Some VNone -> Process._args p = Some [] ->
  Process._kwargs p = Some ∅ ->
  let q := SeparateProcess.set_attributes target name args kwargs daemon p in
  Process._target q = Some target /\
  Process._args q = Some args /\
  Process._kwargs q = Some kwargs /\
  Process.daemon q = default (Process.daemon p) daemon /\
  Process._name q = default (Process._name p) name /\
  Process._popen q = Process._popen p /\ Process._closed q = Process._closed p.
Proof.
  intros Ht Ha Hk. unfold SeparateProcess.set_attributes.
  destruct p as [n t a k d c cl]; simpl in *; subst.
  destruct (nonempty_dict kwargs) eqn:Ekw;
    [| apply nonempty_dict_false in Ekw; subst kwargs];
    destruct (is_None target) eqn:Etg; try (destruct target; try discriminate);
    destruct args, daemon, name; simpl; repeat split; reflexivity.
Qed.

Lemma Process_new_spec (e : Env) :
  let p := fst (Process.new e) in
  Process._target p = Some VNone /\ Process._args p = Some [] /\
  Process._kwargs p = Some ∅ /\ Process.daemon p = false /\
  Process._name p = "Process-" +:+ pretty (S (created e)) /\
  Process._popen p = None /\ Process._closed p = false /\
  snd (Process.new e) = set_created (S (created e)) e.
Proof. simpl. repeat split; reflexivity. Qed.

(** What [create_process] builds over an existing process that still carries
    its launch attributes. *)
Lemma create_process_over (self : SeparateProcess.t) (old : Process.t)
    (tg0 : pyval) (a0 : list pyval) (k0 : gmap string pyval)
    (target : pyval) (name : option string) (args : list pyval)
    (kwargs : gmap string pyval) (daemon : option bool) (e : Env) :
  SeparateProcess._process self = Some old ->
  Process._target old = Some tg0 ->
  Process._args old = Some a0 ->
  Process._kwargs old = Some k0 ->
  exists p,
    SeparateProcess.create_process target name args kwargs daemon (self, e)
      = (Ok tt, (SeparateProcess.set_process_field (Some p) self,
                 emit ECreateProcess (set_created (S (created e)) e))) /\
    Process._target p = Some (if is_None target then tg0 else target) /\
    Process._args p = Some (match args with [] => a0 | _ => args end) /\
    Process._kwargs p = Some (if nonempty_dict kwargs then kwargs else k0) /\
    Process.daemon p = default (Process.daemon old) daemon /\
    Process._name p = default ("Process-" +:+ pretty (S (created e))) name /\
    Process._popen p = None /\ Process._closed p = false.
Proof.
  intros Hp Ht Ha Hk. unfold SeparateProcess.create_process.
  rewrite Hp. unfold SeparateProcess.previous_attributes. rewrite Ht, Ha, Hk.
  set (target' := if is_None target then tg0 else target).
  set (args' := match args with [] => a0 | _ => args end).
  set (kwargs' := if nonempty_dict kwargs then kwargs else k0).
  set (daemon' := match daemon with None => Some (Process.daemon old) | Some _ => daemon end).
  assert (Hargs : match args with [] => Some a0 | _ :: _ => Some args end = Some args')
    by (destruct args; reflexivity).
  rewrite Hargs.
  assert (Hkw : (if nonempty_dict kwargs then Some kwargs else Some k0) = Some kwargs')
    by (unfold kwargs'; destruct (nonempty_dict kwargs); reflexivity).
  rewrite Hkw. cbv beta iota zeta. 
  destruct (Process_new_spec e) as (N1 & N2 & N3 & N4 & N5 & N6 & N7 & N8).
  destruct (Process.new e) as [p0 e0] eqn:En. simpl in N1, N2, N3, N4, N5, N6, N7, N8.
  subst e0.
  exists (SeparateProcess.set_attributes target' name args' kwargs' daemon' p0).
  split; [reflexivity |].
  destruct (set_attributes_spec target' name args' kwargs' daemon' p0 N1 N2 N3)
    as (S1 & S2 & S3 & S4 & S5 & S6 & S7).
  rewrite S1, S2, S3, S4, S5, S6, S7, N4, N5, N6, N7.
  repeat split. unfold daemon'. destruct daemon; reflexivity.
Qed.

(** ... and over a handle that wraps no process. *)
Lemma create_process_fresh (self : SeparateProcess.t)
    (target : pyval) (name : option string) (args : list pyval)
    (kwargs : gmap string pyval) (daemon : option bool) (e : Env) :
  SeparateProcess._process self = None ->
  exists p,
    SeparateProcess.create_process target name args kwargs daemon (self, e)
      = (Ok tt, (SeparateProcess.set_process_field (Some p) self,
                 emit ECreateProcess (set_created (S (created e)) e))) /\
    Process._target p = Some target /\
    Process._args p = Some args /\
    Process._kwargs p = Some kwargs /\
    Process.daemon p = default false daemon /\
    Process._name p = default ("Process-" +:+ pretty (S (created e))) name /\
    Process._popen p = None /\ Process._closed p = false.
Proof.
  intros Hp. unfold SeparateProcess.create_process. rewrite Hp.
  cbv beta iota zeta.
  destruct (Process_new_spec e) as (N1 & N2 & N3 & N4 & N5 & N6 & N7 & N8).
  destruct (Process.new e) as [p0 e0] eqn:En. simpl in N1, N2, N3, N4, N5, N6, N7, N8.
  subst e0.
  exists (SeparateProcess.set_attributes target name args kwargs daemon p0).
  split; [reflexivity |].
  destruct (set_attributes_spec target name args kwargs daemon p0 N1 N2 N3)
    as (S1 & S2 & S3 & S4 & S5 & S6 & S7).
  rewrite S1, S2, S3, S4, S5, S6, S7, N4, N5, N6, N7.
  repeat split.
Qed.





(** The first attempt of [start] fails at the operating system on a process
    that was never started: the handle builds a new process with the old
    one's configuration and makes one more attempt, whose outcome is the
    outcome of [start]. *)
Lemma start_retries_once (self : SeparateProcess.t) (p : Process.t)
    (tg : pyval) (a : list pyval) (k : gmap string pyval)
    (e : Env) (rest : list spawn_outcome) :
  SeparateProcess._process self = Some p ->
  Process._closed p = false -> Process._popen p = None ->
  Process._target p = Some tg -> Process._args p = Some a ->
  Process._kwargs p = Some k ->
  spawns e = SpawnFails :: rest ->
  exists q,
    Process._target q = Some tg /\ Process._args q = Some a /\
    Process._kwargs q = Some k /\ Process.daemon q = Process.daemon p /\
    Process._popen q = None /\ Process._closed q = false /\
    SeparateProcess.start (self, e)
      = SeparateProcess.process_start
          (SeparateProcess.set_process_field (Some q) self,
           emit ECreateProcess
             (set_created (S (created e))
                (emit (EProcessStart false) (set_spawns rest e)))).
Proof.
  intros Hp Hc Hpo Ht Ha Hk Hs.
  destruct (create_process_over self p tg a k VNone None [] ∅ None
              (emit (EProcessStart false) (set_spawns rest e)) Hp Ht Ha Hk)
    as (q & Hq & Q1 & Q2 & Q3 & Q4 & Q5 & Q6 & Q7).
  exists q. simpl in Q1, Q2, Q3, Q4.
  repeat split; try assumption.
  unfold SeparateProcess.start, try_except.
  unfold SeparateProcess.process_start at 1.
  unfold bind at 1. unfold SeparateProcess.the_process at 1. rewrite Hp.
  unfold Process.start. rewrite Hc, Hpo, Hs.
  unfold bind at 1. rewrite Hq. reflexivity.
Qed.

(** X5. When the first spawn of a never-started process fails and the second
    attempt fails as well, the failure reaches the caller after exactly two
    attempts and one recreation. *)
Lemma start_second_failure_propagates (self : SeparateProcess.t) (p : Process.t)
    (tg : pyval) (a : list pyval) (k : gmap string pyval)
    (e : Env) (rest : list spawn_outcome) :
  SeparateProcess._process self = Some p ->
  Process._closed p = false -> Process._popen p = None ->
  Process._target p = Some tg -> Process._args p = Some a ->
  Process._kwargs p = Some k ->
  spawns e = SpawnFails :: SpawnFails :: rest ->
  fst (SeparateProcess.start (self, e)) = Raise OSError /\
  trace (snd (snd (SeparateProcess.start (self, e))))
    = (trace e ++ [EProcessStart false; ECreateProcess; EProcessStart false])%list.
Proof.
  intros Hp Hc Hpo Ht Ha Hk Hs.
  destruct (start_retries_once self p tg a k e (SpawnFails :: rest)
              Hp Hc Hpo Ht Ha Hk Hs) as (q & _ & _ & _ & _ & Q5 & Q6 & ->).
  unfold SeparateProcess.process_start, bind, SeparateProcess.the_process.
  simpl. unfold Process.start. rewrite Q6, Q5. simpl.
  split; [reflexivity |].
  rewrite <- !app_assoc. reflexivity.
Qed.

(** C5. [start] is meant to recreate the process and retry once whenever
    the first attempt fails.  On a handle whose process has already been
    started (the case the retry exists for), the first attempt fails, and
    the recreation then reads [_args] off the old process, which [start]
    has deleted there: [AttributeError] reaches the caller, no process is
    created and no second attempt is made. *)
Theorem start_on_started_process_raises (self : SeparateProcess.t) (p : Process.t)
    (c : Process.Popen) (e : Env) :
  SeparateProcess._process self = Some p ->
  Process._closed p = false ->
  Process._popen p = Some c ->
  Process._args p = None ->
  SeparateProcess.start (self, e) = (Raise (AttributeError "_args"), (self, e)).
Proof.
  intros Hp Hc Hpo Ha.
  unfold SeparateProcess.start, try_except, SeparateProcess.process_start.
  unfold bind at 1. unfold SeparateProcess.the_process at 1. rewrite Hp.
  unfold Process.start. rewrite Hc, Hpo.
  unfold bind, SeparateProcess.create_process. rewrite Hp.
  unfold SeparateProcess.previous_attributes. rewrite Ha. reflexivity.
Qed.

Lemma start_on_started_process_raises_witness :
  Scenario.returned Scenario.started = true /\
  SeparateProcess.start (Scenario.handle_started, Scenario.host_started)
    = (Raise (AttributeError "_args"), (Scenario.handle_started, Scenario.host_started)).
Proof.
  split; [vm_compute; reflexivity |].
  apply (start_on_started_process_raises Scenario.handle_started
           (Process.mk "p" None None None false (Some (Process.mkPopen (Some 0) 0)) false)
           (Process.mkPopen (Some 0) 0) Scenario.host_started);
    vm_compute; reflexivity.
Defined.

(** ** SeparateProcess: closing *)


#[local] Arguments Process.poll : simpl never.




(** ** SeparateProcess: waiting for the process *)

Lemma process_exitcode_started self c e :
  wraps_started self c ->
  SeparateProcess.process_exitcode (self, e) = (Ok (Process.poll c (clock e)), (self, e)).
Proof.
  intros (p & Hp & Hc & Hpo).
  unfold SeparateProcess.process_exitcode, bind, SeparateProcess.the_process.
  rewrite Hp. unfold Process.exitcode. rewrite Hc, Hpo. reflexivity.
Qed.




(** One turn of the loop of [join_async]. *)
Lemma join_async_loop_unfold self c polls start_time timeout interval e :
  wraps_started self c ->
  SeparateProcess.join_async_loop polls start_time timeout interval (self, e)
    = match Process.poll c (clock e) with
      | Some _ => (Ok tt, (self, e))
      | None =>
          match polls with
          | O => (Pending, (self, e))
          | S n =>
              if timed_out timeout start_time (clock (sleep interval e))
              then (Ok tt, (self, warn timeout_warning (sleep interval e)))
              else SeparateProcess.join_async_loop n start_time timeout interval
                     (self, sleep interval e)
          end
      end.
Proof.
  intros Hw.
  destruct polls as [| n]; cbn [SeparateProcess.join_async_loop]; unfold bind at 1;
    rewrite (process_exitcode_started self c e Hw);
    destruct (Process.poll c (clock e)); try reflexivity.
  unfold bind, host, perf_counter. cbv beta iota.
  destruct (timed_out timeout start_time (clock (sleep interval e))); reflexivity.
Qed.



Lemma clock_sleep interval e :
  clock (sleep interval e) = clock e + Z.max interval 0 + tick e.
Proof. reflexivity. Qed.




(** A process that runs for ever, joined with a timeout of 5 ticks: the
    caller is back at time 5 with one warning, and the child is alive. *)
Example join_long_running :
  let out := SeparateProcess.join (Some 5) (Scenario.handle_running, Scenario.host_running) in
  fst out = Ok tt /\ clock (snd (snd out)) = 5 /\
  warned (snd (snd out)) = [timeout_warning] /\
  fst (SeparateProcess.is_alive (snd out)) = Ok true.
Proof. vm_compute. repeat split; reflexivity. Qed.

Example join_async_long_running :
  let out := SeparateProcess.join_async 10 (Some 5) 2 (Scenario.handle_running, Scenario.host_running) in
  fst out = Ok tt /\ clock (snd (snd out)) = 6 /\
  warned (snd (snd out)) = [timeout_warning] /\
  fst (SeparateProcess.is_alive (snd out)) = Ok true.
Proof. vm_compute. repeat split; reflexivity. Qed.

(** ** ProcessingUnit: the processing flag *)

Lemma preserves_bind_get {S B} (P : S -> Prop) (k : S -> M S B) :
  (forall s, P s -> P (snd (k s s))) -> preserves P (bind get k).
Proof. intros H s Hs. unfold bind, get. apply H. exact Hs. Qed.

Lemma preserves_at {S A} (P : S -> Prop) (m : M S A) (s : S) :
  preserves P m -> P s -> P (snd (m s)).
Proof. intros H. apply H. Qed.

Section InProcess.
Import ProcessingUnit.
Variable b : bool.
Let P := in_process_with b.

Lemma phase_event_setup a : phase_event (ESetup a).
Proof. intros v. reflexivity. Qed.
Lemma phase_event_task m a : phase_event (ETask m a).
Proof. intros v. reflexivity. Qed.
Lemma phase_event_closure a : phase_event (EClosure a).
Proof. intros v. reflexivity. Qed.

Lemma in_process_set_joined j : preserves P (set_joined j).
Proof.
  intros [u e] (H1 & H2 & H3). unfold P, in_process_with. simpl.
  repeat split; try assumption.
  apply Forall_app. split; [exact H3 |]. constructor; [| constructor].
  intros v Hv. discriminate.
Qed.

Lemma in_process_execute f kw : preserves P (execute f kw).
Proof.
  intros [u e] (H1 & H2 & H3). unfold execute.
  destruct (f (view u) kw (world e)); simpl; repeat split; assumption.
Qed.

Lemma in_process_run_body ev f kw : phase_event ev -> preserves P (run_body ev f kw).
Proof.
  intros Hev [u e] (H1 & H2 & H3).
  assert (Hall : Forall (sees_processing b) (trace e ++ [ev (view u)])).
  { apply Forall_app. split; [exact H3 |]. constructor; [| constructor].
    intros v Hv. rewrite Hev in Hv. injection Hv as <-. exact H2. }
  unfold run_body, bind, get, host, execute. simpl.
  destruct (f (view u) kw (world e)); simpl; repeat split; assumption.
Qed.

Lemma in_process_call ev c kw : phase_event ev -> preserves P (call ev c kw).
Proof.
  intros Hev. unfold call. destruct (iscoroutinefunction c);
    [apply preserves_ret | apply in_process_run_body; exact Hev].
Qed.

Lemma in_process_await_or_call ev c kw :
  (forall a, phase_event (ev a)) -> preserves P (await_or_call ev c kw).
Proof.
  intros Hev. unfold await_or_call. destruct (iscoroutinefunction c);
    apply in_process_run_body; apply Hev.
Qed.

(** In-process, [is_processing] is a plain read of the flag. *)
Lemma in_process_is_processing u e :
  P (u, e) -> is_processing (u, e) = (Ok b, (u, e)).
Proof.
  intros (H1 & H2 & H3). simpl in H1, H2. unfold is_processing.
  rewrite H1, H2. destruct (process u); reflexivity.
Qed.

Lemma in_process_task_object : preserves P task_object.
Proof.
  intros [u e] H. unfold task_object, bind.
  rewrite (in_process_is_processing u e H).
  destruct b; simpl; exact H.
Qed.

Lemma in_process_the_task meth : preserves P (the_task meth).
Proof.
  unfold the_task. apply preserves_bind; [apply in_process_task_object |].
  intros [k |]; [apply preserves_ret | apply preserves_raise].
Qed.

Lemma in_process_is_async : preserves P is_async.
Proof.
  unfold is_async. apply preserves_bind_get. intros [u e] H. cbn [fst].
  destruct H as (H1 & H2 & H3). cbn [fst] in H1. rewrite H1.
  destruct (iscoroutinefunction (_execute_setup u) || iscoroutinefunction (_execute_closure u));
    [repeat split; assumption |].
  cbn [negb]. apply preserves_at; [| repeat split; assumption].
  apply preserves_bind; [apply in_process_the_task | intros k; apply preserves_ret].
Qed.

Lemma in_process_closure_coro polls : preserves P (closure_coro polls).
Proof.
  unfold closure_coro. apply preserves_bind_get. intros [u e] H. cbn [fst].
  pose proof H as (H1 & H2 & H3). cbn [fst] in H1. rewrite H1.
  apply preserves_at; [| exact H].
  apply preserves_when. apply preserves_bind; [apply preserves_ret |].
  intros _. apply preserves_bind_get. intros [u' e'] H'. cbn [fst].
  apply preserves_at; [| exact H'].
  apply in_process_await_or_call. intros a. apply phase_event_closure.
Qed.

Lemma in_process_run_normal s t c : preserves P (run_normal s t c).
Proof.
  unfold run_normal.
  apply preserves_bind; [apply in_process_set_joined | intros _].
  apply preserves_bind_get. intros [u e] H. cbn [fst].
  apply preserves_at; [| exact H].
  apply preserves_bind;
    [apply preserves_when, in_process_call, phase_event_setup | intros _].
  apply preserves_bind_get. intros [u1 e1] H1. cbn [fst].
  pose proof H1 as (K1 & _). cbn [fst] in K1. rewrite K1.
  apply preserves_at; [| exact H1].
  apply preserves_bind.
  { apply preserves_bind; [apply in_process_the_task | intros k].
    apply in_process_run_body, phase_event_task. }
  intros _. apply preserves_bind_get. intros [u2 e2] H2. cbn [fst].
  pose proof H2 as (K2 & _). cbn [fst] in K2. rewrite K2.
  apply preserves_at; [| exact H2].
  apply preserves_bind; [| intros _; apply in_process_set_joined].
  apply preserves_when. apply preserves_bind; [apply preserves_ret | intros _].
  apply preserves_bind_get. intros [u3 e3] H3. cbn [fst].
  apply preserves_at; [| exact H3].
  apply in_process_call, phase_event_closure.
Qed.

Lemma in_process_start_normal s t c : preserves P (start_normal s t c).
Proof.
  unfold start_normal.
  apply preserves_bind; [apply in_process_set_joined | intros _].
  apply preserves_bind_get. intros [u e] H. cbn [fst].
  apply preserves_at; [| exact H].
  apply preserves_bind;
    [apply preserves_when, in_process_call, phase_event_setup | intros _].
  apply preserves_bind_get. intros [u1 e1] H1. cbn [fst].
  pose proof H1 as (K1 & _). cbn [fst] in K1. rewrite K1.
  apply preserves_at; [| exact H1].
  apply preserves_bind.
  { apply preserves_bind; [apply in_process_the_task | intros k].
    apply in_process_run_body, phase_event_task. }
  intros _. apply preserves_bind_get. intros [u2 e2] H2. cbn [fst].
  pose proof H2 as (K2 & _). cbn [fst] in K2. rewrite K2.
  apply preserves_at; [| exact H2].
  apply preserves_bind; [| intros _; apply in_process_set_joined].
  apply preserves_when. apply preserves_bind; [apply preserves_ret | intros _].
  apply preserves_bind_get. intros [u3 e3] H3. cbn [fst].
  apply preserves_at; [| exact H3].
  apply in_process_call, phase_event_closure.
Qed.

Lemma in_process_run_coro polls s t c : preserves P (run_coro polls s t c).
Proof.
  unfold run_coro.
  apply preserves_bind; [apply in_process_set_joined | intros _].
  apply preserves_bind_get. intros [u e] H. cbn [fst].
  apply preserves_at; [| exact H].
  apply preserves_bind.
  { apply preserves_when, in_process_await_or_call. intros a. apply phase_event_setup. }
  intros _. apply preserves_bind_get. intros [u1 e1] H1. cbn [fst].
  pose proof H1 as (K1 & _). cbn [fst] in K1. rewrite K1.
  apply preserves_at; [| exact H1].
  apply preserves_bind; [| intros _; apply in_process_set_joined].
  apply preserves_bind; [apply in_process_the_task | intros probe].
  apply preserves_bind; [| intros _; apply in_process_closure_coro].
  destruct (task_is_async probe);
    (apply preserves_bind; [apply in_process_the_task | intros k]);
    apply in_process_run_body, phase_event_task.
Qed.

Lemma in_process_start_coro polls s t c : preserves P (start_coro polls s t c).
Proof.
  unfold start_coro.
  apply preserves_bind; [apply in_process_set_joined | intros _].
  apply preserves_bind_get. intros [u e] H. cbn [fst].
  apply preserves_at; [| exact H].
  apply preserves_bind.
  { apply preserves_when, in_process_await_or_call. intros a. apply phase_event_setup. }
  intros _. apply preserves_bind_get. intros [u1 e1] H1. cbn [fst].
  pose proof H1 as (K1 & _). cbn [fst] in K1. rewrite K1.
  apply preserves_at; [| exact H1].
  apply preserves_bind.
  { apply preserves_bind; [apply in_process_the_task | intros probe].
    destruct (task_is_async probe);
      (apply preserves_bind; [apply in_process_the_task | intros k]);
      apply in_process_run_body, phase_event_task. }
  intros _.
  apply preserves_bind; [apply in_process_closure_coro | intros _].
  apply in_process_set_joined.
Qed.

Lemma in_process_run polls s t c : preserves P (run polls s t c).
Proof.
  unfold run. apply preserves_bind; [apply in_process_is_async | intros [|]];
    [apply in_process_run_coro | apply in_process_run_normal].
Qed.

Lemma in_process_start polls s t c : preserves P (start polls s t c).
Proof.
  unfold start. apply preserves_bind; [apply in_process_is_async | intros [|]];
    [apply in_process_start_coro | apply in_process_start_normal].
Qed.

Lemma in_process_dispatches polls s t c d :
  In d (dispatches polls s t c) -> preserves P d.
Proof.
  unfold dispatches. simpl.
  intros [<- | [<- | [<- | [<- | [<- | [<- | []]]]]]].
  - apply in_process_run.
  - apply in_process_start.
  - apply in_process_run_coro.
  - apply in_process_start_coro.
  - apply in_process_run_normal.
  - apply in_process_start_normal.
Qed.
End InProcess.

(** C9. [is_processing] on a unit in separate-process mode that has a
    process handle reports that handle's liveness and stores it in the unit;
    on an in-process unit it returns the stored flag and changes nothing.
    No dispatch path writes that flag in-process: it has the same value
    before the dispatch, in the view of every phase that runs during it, and
    after it, so a unit built with the flag false reports false
    throughout. *)
Theorem is_processing_handle_or_stored_flag (u : ProcessingUnit.t) (e : Env) :
  (forall sp, ProcessingUnit.process u = Some sp ->
     ProcessingUnit.separate_process u = true ->
     fst (ProcessingUnit.is_processing (u, e)) = fst (SeparateProcess.is_alive (sp, e)) /\
     forall alive, fst (ProcessingUnit.is_processing (u, e)) = Ok alive ->
       ProcessingUnit._is_processing (fst (snd (ProcessingUnit.is_processing (u, e))))
         = alive) /\
  (ProcessingUnit.separate_process u = false ->
     ProcessingUnit.is_processing (u, e) = (Ok (ProcessingUnit._is_processing u), (u, e)) /\
     forall polls s t c d, In d (dispatches polls s t c) ->
       Forall (sees_processing (ProcessingUnit._is_processing u)) (trace e) ->
       ProcessingUnit._is_processing (fst (snd (d (u, e))))
         = ProcessingUnit._is_processing u /\
       Forall (sees_processing (ProcessingUnit._is_processing u))
         (trace (snd (snd (d (u, e)))))).
Proof.
  split.
  - intros sp Hsp Hsep. unfold ProcessingUnit.is_processing. rewrite Hsp, Hsep.
    destruct (SeparateProcess.is_alive (sp, e)) as [[alive | x |] [sp' e']]; simpl.
    + split; [reflexivity |]. intros a Ha. inversion Ha; subst. reflexivity.
    + split; [reflexivity |]. intros a Ha. discriminate.
    + split; [reflexivity |]. intros a Ha. discriminate.
  - intros Hsep. split.
    + unfold ProcessingUnit.is_processing. rewrite Hsep.
      destruct (ProcessingUnit.process u); reflexivity.
    + intros polls s t c d Hd Htrace.
      pose proof (in_process_dispatches (ProcessingUnit._is_processing u)
                    polls s t c d Hd (u, e)) as H.
      destruct H as (_ & H2 & H3).
      * repeat split; [exact Hsep | exact Htrace].
      * split; assumption.
Qed.

Lemma is_processing_handle_or_stored_flag_witness :
  ProcessingUnit.is_processing (UnitScenario.local_unit, UnitScenario.local_host)
    = (Ok false, (UnitScenario.local_unit, UnitScenario.local_host)) /\
  ProcessingUnit._is_processing
    (fst (snd (ProcessingUnit.run 5 ∅ ∅ ∅ (UnitScenario.local_unit, UnitScenario.local_host))))
    = false.
Proof.
  destruct (proj2 (is_processing_handle_or_stored_flag UnitScenario.local_unit
                     UnitScenario.local_host) eq_refl) as [H1 H2].
  split; [exact H1 |].
  refine (proj1 (H2 5%nat ∅ ∅ ∅ (ProcessingUnit.run 5 ∅ ∅ ∅) _ _)).
  - left. reflexivity.
  - constructor.
Defined.

(** C9, as stated, fails in-process: during a dispatched [run] the setup,
    the task and the closure all find the processing flag false. *)
Lemma is_processing_false_during_in_process_run :
  ProcessingUnit.separate_process UnitScenario.local_unit = false /\
  UnitScenario.outcome
    (ProcessingUnit.run 5 ∅ ∅ ∅ (UnitScenario.local_unit, UnitScenario.local_host))
  = (Ok tt,
     [ESetJoined false;
      ESetup false (mkView false false);
      ETask Run false (mkView false false);
      EClosure false (mkView false false);
      ESetJoined true],
     []).
Proof. vm_compute. split; reflexivity. Qed.

(** ** ProcessingUnit: joining *)

Lemma remaining_at_once (timeout : option Z) (now : Z) :
  ProcessingUnit.remaining timeout now now = timeout.
Proof.
  unfold ProcessingUnit.remaining. destruct timeout as [T |]; simpl; [| reflexivity].
  f_equal. lia.
Qed.

(** With the flag already set, [join] never enters its loop: it goes
    straight to the process handle in separate-process mode and returns at
    once otherwise. *)
Lemma join_when_joined (u : ProcessingUnit.t) (e : Env) (polls : nat)
    (timeout : option Z) :
  ProcessingUnit._joined u = true ->
  ProcessingUnit.join polls timeout (u, e)
    = if ProcessingUnit.separate_process u
      then ProcessingUnit.on_process "join" (SeparateProcess.join timeout) (u, e)
      else (Ok tt, (u, e)).
Proof.
  intros Hj. unfold ProcessingUnit.join, bind, perf_counter.
  assert (Hloop : ProcessingUnit.join_loop polls (clock e) timeout (u, e)
                  = (Ok true, (u, e))).
  { destruct polls; cbn [ProcessingUnit.join_loop]; unfold bind, get; cbn [fst];
      rewrite Hj; reflexivity. }
  rewrite Hloop. unfold get. cbn [fst]. rewrite remaining_at_once.
  destruct (ProcessingUnit.separate_process u); reflexivity.
Qed.

Lemma join_async_when_joined (u : ProcessingUnit.t) (e : Env) (polls : nat)
    (timeout : option Z) (interval : Z) :
  ProcessingUnit._joined u = true ->
  ProcessingUnit.join_async polls timeout interval (u, e)
    = if ProcessingUnit.separate_process u
      then ProcessingUnit.on_process "join_async"
             (SeparateProcess.join_async polls timeout interval) (u, e)
      else (Ok tt, (u, e)).
Proof.
  intros Hj. unfold ProcessingUnit.join_async, bind, perf_counter.
  assert (Hloop : ProcessingUnit.join_async_loop polls (clock e) timeout interval (u, e)
                  = (Ok true, (u, e))).
  { destruct polls; cbn [ProcessingUnit.join_async_loop]; unfold bind, get; cbn [fst];
      rewrite Hj; reflexivity. }
  rewrite Hloop. unfold get. cbn [fst]. rewrite remaining_at_once.
  destruct (ProcessingUnit.separate_process u); reflexivity.
Qed.

Section Undispatched.
Import ProcessingUnit.
Variable separate : bool.
Let P := undispatched separate.

Lemma undispatched_is_processing : preserves P is_processing.
Proof.
  intros [u e] (H1 & H2 & H3). cbn [fst] in H1, H2, H3.
  unfold is_processing.
  destruct (process u) as [sp |] eqn:Ep.
  - destruct (separate_process u) eqn:Es.
    + destruct (SeparateProcess.is_alive (sp, e)) as [[alive | x |] [sp' e']];
        unfold P, undispatched; cbn; rewrite ?Es;
        (split; [exact H1 | split; [exact H2 |]]);
        intros Hf; specialize (H3 Hf); congruence.
    + unfold P, undispatched; cbn; rewrite ?Es, ?Ep.
      split; [exact H1 | split; [exact H2 | exact H3]].
  - unfold P, undispatched; cbn; rewrite ?Ep.
    split; [exact H1 | split; [exact H2 | exact H3]].
Qed.

Lemma undispatched_task_object : preserves P task_object.
Proof.
  unfold task_object. apply preserves_bind; [apply undispatched_is_processing |].
  intros [|]; [apply preserves_raise |].
  apply preserves_bind; [apply preserves_get | intros s; apply preserves_ret].
Qed.

Lemma undispatched_set_task_object k : preserves P (set_task_object k).
Proof.
  unfold set_task_object. apply preserves_bind; [apply undispatched_is_processing |].
  intros [|]; [apply preserves_raise |].
  intros [u e] H. exact H.
Qed.

Lemma undispatched_new_process name_arg daemon kwargs :
  separate = true -> preserves P (new_process name_arg daemon kwargs).
Proof.
  intros Hs [u e] (H1 & H2 & H3). cbn [fst] in H1, H2, H3. unfold new_process.
  destruct (SeparateProcess.__init__ VNone
              match name_arg with Some _ => name_arg | None => name u end
              [] kwargs (Some daemon) false true e) as [[sp | x |] e'];
    unfold P, undispatched; cbn;
    (split; [exact H1 | split; [exact H2 |]]); intros Hf; congruence.
Qed.

Lemma undispatched_construct D name_arg task to_kwargs daemon p_kwargs :
  preserves P (construct D name_arg task to_kwargs daemon p_kwargs).
Proof.
  unfold construct. apply preserves_bind_get. intros [u e] H. cbn [fst].
  apply preserves_at; [| exact H].
  destruct H as (_ & H2 & _). cbn [fst] in H2.
  apply preserves_bind.
  { destruct (separate_process u) eqn:Es; [| apply preserves_ret].
    apply undispatched_new_process. symmetry. exact H2. }
  intros _. destruct task as [k |]; [apply undispatched_set_task_object |].
  apply preserves_bind; [apply undispatched_task_object |].
  intros [k |]; [apply preserves_ret |].
  unfold default_task_object. destruct D as [make |]; [| apply preserves_raise].
  apply preserves_bind; [apply preserves_get | intros s].
  apply undispatched_set_task_object.
Qed.

Lemma undispatched_init D name_arg task to_kwargs daemon p_kwargs asu acl init e u e' :
  __init__ D name_arg task to_kwargs separate daemon p_kwargs asu acl init e = (Ok u, e') ->
  P (u, e').
Proof.
  unfold __init__. intros H.
  set (u0 := mk name_arg ∅ ∅ asu acl false separate false None setup None closure true) in *.
  assert (H0 : P (u0, e)) by (repeat split; reflexivity).
  destruct init; [| inversion H; subst; exact H0].
  pose proof (undispatched_construct D name_arg task to_kwargs daemon p_kwargs (u0, e) H0)
    as Hc.
  destruct (construct D name_arg task to_kwargs daemon p_kwargs (u0, e))
    as [[[] | x |] [u1 e1]]; inversion H; subst. exact Hc.
Qed.
End Undispatched.

(** C10. A unit that has just been constructed has its joined flag set, so
    [join] and [join_async] never enter the loop that polls the flag: an
    in-process unit has no process handle and both calls return at once,
    leaving unit and host exactly as they were, while a unit in
    separate-process mode goes straight on to join its process handle. *)
Theorem join_on_new_unit_skips_the_flag_loop
    (D : option (option string -> gmap string pyval -> ProcessingUnit.Task))
    (name_arg : option string) (task : option ProcessingUnit.Task)
    (to_kwargs : gmap string pyval) (separate daemon : bool)
    (p_kwargs : gmap string pyval) (asu acl init : bool) (e0 e1 : Env)
    (u : ProcessingUnit.t) :
  ProcessingUnit.__init__ D name_arg task to_kwargs separate daemon p_kwargs asu acl init e0
    = (Ok u, e1) ->
  ProcessingUnit._joined u = true /\
  (separate = false -> ProcessingUnit.process u = None) /\
  (forall polls timeout e,
     ProcessingUnit.join polls timeout (u, e)
       = if separate
         then ProcessingUnit.on_process "join" (SeparateProcess.join timeout) (u, e)
         else (Ok tt, (u, e))) /\
  (forall polls timeout interval e,
     ProcessingUnit.join_async polls timeout interval (u, e)
       = if separate
         then ProcessingUnit.on_process "join_async"
                (SeparateProcess.join_async polls timeout interval) (u, e)
         else (Ok tt, (u, e))).
Proof.
  intros H. destruct (undispatched_init separate _ _ _ _ _ _ _ _ _ _ _ _ H)
    as (H1 & H2 & H3). cbn [fst] in H1, H2, H3.
  split; [exact H1 |]. split; [exact H3 |]. split.
  - intros polls timeout e. rewrite (join_when_joined u e polls timeout H1), H2.
    reflexivity.
  - intros polls timeout interval e.
    rewrite (join_async_when_joined u e polls timeout interval H1), H2. reflexivity.
Qed.

Lemma join_on_new_unit_skips_the_flag_loop_witness :
  ProcessingUnit.join 5 (Some 3) (UnitScenario.new_local_unit, Scenario.host0)
  = (Ok tt, (UnitScenario.new_local_unit, Scenario.host0)).
Proof.
  refine (proj1 (proj2 (proj2
    (join_on_new_unit_skips_the_flag_loop None (Some "unit") (Some UnitScenario.task) ∅
       false false ∅ true true true Scenario.host0 Scenario.host0
       UnitScenario.new_local_unit _))) 5%nat (Some 3) Scenario.host0).
  vm_compute. reflexivity.
Defined.

(** C10, as stated, fails for a new unit in separate-process mode: [join]
    does not return, it raises when it reaches the process that was never
    started, and [join_async] sleeps turn after turn waiting for it. *)
Lemma join_on_new_separate_unit_does_not_return :
  Scenario.returned UnitScenario.made_remote = true /\
  ProcessingUnit._joined UnitScenario.new_remote_unit = true /\
  UnitScenario.outcome
    (ProcessingUnit.join 5 (Some 3)
       (UnitScenario.new_remote_unit, UnitScenario.new_remote_host))
  = (Raise (AssertionError "can only join a started process"),
     [ECreateProcess; EHandleJoin (Some 3)], []) /\
  UnitScenario.outcome
    (ProcessingUnit.join_async 2 None 0
       (UnitScenario.new_remote_unit, UnitScenario.new_remote_host))
  = (Pending, [ECreateProcess; EHandleJoinAsync None; ESleep 0; ESleep 0], []).
Proof. vm_compute. repeat split; reflexivity. Qed.

(** ** ProcessingUnit and ProcessingCluster: stopping *)

Lemma preserves_pure {S A} (P : S -> Prop) (m : M S A) :
  (forall s, snd (m s) = s) -> preserves P m.
Proof. intros H s Hs. rewrite H. exact Hs. Qed.

Lemma extends_host {X} (base : list event) (f : Env -> Env) :
  (forall e, exists evs, trace (f e) = (trace e ++ evs)%list) ->
  preserves (@extends X base) (host f).
Proof.
  intros Hf [x e] [evs He]. destruct (Hf e) as [more Hm].
  simpl in He. exists (evs ++ more)%list. simpl. rewrite Hm, He, app_assoc. reflexivity.
Qed.

Lemma trace_emit ev e : exists evs, trace (emit ev e) = (trace e ++ evs)%list.
Proof. exists [ev]. reflexivity. Qed.
Lemma trace_warn w e : exists evs, trace (warn w e) = (trace e ++ evs)%list.
Proof. exists []. simpl. rewrite app_nil_r. reflexivity. Qed.
Lemma trace_sleep i e : exists evs, trace (sleep i e) = (trace e ++ evs)%list.
Proof. exists [ESleep i]. reflexivity. Qed.
Lemma trace_poll_turn e :
  exists evs, trace (ProcessingUnit.poll_turn e) = (trace e ++ evs)%list.
Proof. exists [EPoll]. reflexivity. Qed.

Lemma extends_the_process {base} meth :
  preserves (extends base) (SeparateProcess.the_process meth).
Proof.
  apply preserves_pure. intros [self e]. unfold SeparateProcess.the_process.
  destruct (SeparateProcess._process self); reflexivity.
Qed.

Lemma extends_process_exitcode {base} :
  preserves (extends base) SeparateProcess.process_exitcode.
Proof.
  apply preserves_pure. intros [self e].
  unfold SeparateProcess.process_exitcode, bind, SeparateProcess.the_process.
  destruct (SeparateProcess._process self); reflexivity.
Qed.

Lemma trace_Process_join timeout p e :
  trace (snd (Process.join timeout p e)) = trace e.
Proof.
  unfold Process.join.
  destruct (Process._closed p); [reflexivity |].
  destruct (Process._popen p) as [c |]; [| reflexivity].
  destruct (Process.poll c (clock e)); [reflexivity |].
  destruct timeout, (Process.exits_at c); reflexivity.
Qed.

Lemma extends_handle_join {base} timeout :
  preserves (extends base) (SeparateProcess.join timeout).
Proof.
  unfold SeparateProcess.join.
  apply preserves_bind; [apply extends_host, trace_emit | intros _].
  apply preserves_bind; [apply extends_the_process | intros p].
  apply preserves_bind.
  { intros [self e] [evs He]. pose proof (trace_Process_join timeout p e) as Ht.
    unfold extends. simpl in He.
    destruct (Process.join timeout p e) as [r e']. cbn [fst snd] in *.
    exists evs. rewrite Ht. exact He. }
  intros _. apply preserves_bind; [apply extends_process_exitcode | intros code].
  destruct code; [apply preserves_ret | apply extends_host, trace_warn].
Qed.

Lemma extends_handle_join_async_loop {base} polls start_time timeout interval :
  preserves (extends base)
    (SeparateProcess.join_async_loop polls start_time timeout interval).
Proof.
  induction polls as [| n IH]; cbn [SeparateProcess.join_async_loop];
    (apply preserves_bind; [apply extends_process_exitcode | intros code]);
    destruct code; try apply preserves_ret; try apply preserves_pending.
  apply preserves_bind; [apply extends_host, trace_sleep | intros _].
  apply preserves_bind; [apply preserves_perf_counter | intros now].
  destruct (timed_out timeout start_time now);
    [apply extends_host, trace_warn | exact IH].
Qed.

Lemma extends_handle_join_async {base} polls timeout interval :
  preserves (extends base) (SeparateProcess.join_async polls timeout interval).
Proof.
  unfold SeparateProcess.join_async.
  apply preserves_bind; [apply extends_host, trace_emit | intros _].
  apply preserves_bind; [apply preserves_perf_counter | intros now].
  apply extends_handle_join_async_loop.
Qed.

Lemma extends_on_process {A base} meth (m : M (SeparateProcess.t * Env) A) :
  preserves (extends base) m ->
  preserves (extends base) (ProcessingUnit.on_process meth m).
Proof.
  intros Hm [u e] He. unfold ProcessingUnit.on_process.
  destruct (ProcessingUnit.process u) as [sp |]; [| exact He].
  specialize (Hm (sp, e) He).
  destruct (m (sp, e)) as [r [sp' e']]. exact Hm.
Qed.

Lemma extends_join_loop {base} polls start_time timeout :
  preserves (extends base) (ProcessingUnit.join_loop polls start_time timeout).
Proof.
  induction polls as [| n IH]; cbn [ProcessingUnit.join_loop];
    (apply preserves_bind; [apply preserves_get | intros s]);
    destruct (ProcessingUnit._joined (fst s));
    try apply preserves_ret; try apply preserves_pending.
  apply preserves_bind; [apply extends_host, trace_poll_turn | intros _].
  apply preserves_bind; [apply preserves_perf_counter | intros now].
  destruct (timed_out timeout start_time now); [apply preserves_ret | exact IH].
Qed.

(** [join] only adds events to the trace. *)
Lemma extends_join {base} polls timeout :
  preserves (extends base) (ProcessingUnit.join polls timeout).
Proof.
  unfold ProcessingUnit.join.
  apply preserves_bind; [apply preserves_perf_counter | intros start_time].
  apply preserves_bind; [apply extends_join_loop | intros joined].
  destruct joined; [| apply preserves_ret].
  apply preserves_bind; [apply preserves_perf_counter | intros now].
  apply preserves_bind; [apply preserves_get | intros s].
  apply preserves_when, extends_on_process, extends_handle_join.
Qed.

(** What [stop] does once the task object has been told to stop. *)
Lemma stop_task_returns u task e budget w :
  ProcessingUnit._task_object u = Some task ->
  ProcessingUnit.task_stop task budget (world e) = Ok w ->
  ProcessingUnit.stop_task budget (u, e)
    = (Ok tt, (u, set_world w (emit (ETaskStop budget) e))).
Proof.
  intros Ht Hs. unfold ProcessingUnit.stop_task. rewrite Ht, Hs. reflexivity.
Qed.

Lemma stop_task_raises u task e budget x :
  ProcessingUnit._task_object u = Some task ->
  ProcessingUnit.task_stop task budget (world e) = Raise x ->
  ProcessingUnit.stop_task budget (u, e) = (Raise x, (u, emit (ETaskStop budget) e)).
Proof.
  intros Ht Hs. unfold ProcessingUnit.stop_task. rewrite Ht, Hs. reflexivity.
Qed.

(** C4. A cluster's [stop(join, timeout)] first calls the task object's
    [stop] with that same [join] and [timeout], and only when that call has
    returned does it perform its own [join(timeout)], and only if [join] is
    true: every event of the cluster's join comes after the task's stop in
    the trace, and a task whose stop raises is never followed by a join.
    The base unit's [stop] calls the task object's [stop] without arguments
    and then joins in the same way. *)
Theorem cluster_stop_delegates_then_joins (u : ProcessingUnit.t)
    (task : ProcessingUnit.Task) (e : Env) (polls : nat) (join_arg : bool)
    (timeout : option Z) :
  ProcessingUnit._task_object u = Some task ->
  (forall w, ProcessingUnit.task_stop task (Some (join_arg, timeout)) (world e) = Ok w ->
     let told := (u, set_world w (emit (ETaskStop (Some (join_arg, timeout))) e)) in
     ProcessingCluster.stop polls join_arg timeout (u, e)
       = (if join_arg then ProcessingUnit.join polls timeout told else (Ok tt, told)) /\
     exists evs,
       trace (snd (snd (ProcessingCluster.stop polls join_arg timeout (u, e))))
         = (trace e ++ ETaskStop (Some (join_arg, timeout)) :: evs)%list /\
       (join_arg = false -> evs = [])) /\
  (forall x, ProcessingUnit.task_stop task (Some (join_arg, timeout)) (world e) = Raise x ->
     ProcessingCluster.stop polls join_arg timeout (u, e)
       = (Raise x, (u, emit (ETaskStop (Some (join_arg, timeout))) e))) /\
  (forall w, ProcessingUnit.task_stop task None (world e) = Ok w ->
     let told := (u, set_world w (emit (ETaskStop None) e)) in
     ProcessingUnit.stop polls join_arg timeout (u, e)
       = (if join_arg then ProcessingUnit.join polls timeout told else (Ok tt, told)) /\
     exists evs,
       trace (snd (snd (ProcessingUnit.stop polls join_arg timeout (u, e))))
         = (trace e ++ ETaskStop None :: evs)%list /\
       (join_arg = false -> evs = [])).
Proof.
  intros Ht.
  assert (Hgen : forall budget w,
            ProcessingUnit.task_stop task budget (world e) = Ok w ->
            let told := (u, set_world w (emit (ETaskStop budget) e)) in
            bind (ProcessingUnit.stop_task budget)
                 (fun _ => when join_arg (ProcessingUnit.join polls timeout)) (u, e)
              = (if join_arg then ProcessingUnit.join polls timeout told else (Ok tt, told)) /\
            exists evs,
              trace (snd (snd (bind (ProcessingUnit.stop_task budget)
                 (fun _ => when join_arg (ProcessingUnit.join polls timeout)) (u, e))))
                = (trace e ++ ETaskStop budget :: evs)%list /\
              (join_arg = false -> evs = [])).
  { intros budget w Hs told.
    assert (Heq : bind (ProcessingUnit.stop_task budget)
                    (fun _ => when join_arg (ProcessingUnit.join polls timeout)) (u, e)
                  = (if join_arg then ProcessingUnit.join polls timeout told
                     else (Ok tt, told))).
    { unfold bind. rewrite (stop_task_returns u task e budget w Ht Hs).
      destruct join_arg; reflexivity. }
    split; [exact Heq |]. rewrite Heq. destruct join_arg.
    - destruct (@extends_join (trace e ++ [ETaskStop budget])%list polls timeout told)
        as [evs Hevs].
      + exists []. simpl. rewrite app_nil_r. reflexivity.
      + exists evs. split; [| discriminate].
        rewrite Hevs, <- app_assoc. reflexivity.
    - exists []. split; [reflexivity | reflexivity]. }
  split; [| split].
  - intros w Hs. exact (Hgen (Some (join_arg, timeout)) w Hs).
  - intros x Hs. unfold ProcessingCluster.stop, bind.
    rewrite (stop_task_raises u task e _ x Ht Hs). reflexivity.
  - intros w Hs. exact (Hgen None w Hs).
Qed.

Lemma cluster_stop_delegates_then_joins_witness :
  ProcessingCluster.stop 5 true (Some 3) (UnitScenario.local_unit, UnitScenario.local_host)
  = ProcessingUnit.join 5 (Some 3)
      (UnitScenario.local_unit,
       set_world (world UnitScenario.local_host)
         (emit (ETaskStop (Some (true, Some 3))) UnitScenario.local_host)).
Proof.
  refine (proj1 (proj1 (cluster_stop_delegates_then_joins UnitScenario.local_unit
            UnitScenario.task UnitScenario.local_host 5 true (Some 3) _)
            (world UnitScenario.local_host) _)); vm_compute; reflexivity.
Defined.

(** A cluster still running its dispatch, stopped with a budget of 3 ticks:
    the task is told first, the polls of the cluster's own join follow. *)
Example cluster_stop_order :
  UnitScenario.outcome
    (ProcessingCluster.stop 5 true (Some 3)
       (ProcessingUnit.with_joined false UnitScenario.local_unit, UnitScenario.local_host))
  = (Ok tt, [ETaskStop (Some (true, Some 3)); EPoll; EPoll; EPoll], []).
Proof. vm_compute. reflexivity. Qed.

(** ** ProcessingUnit: the phase sequence *)

(** The end-to-end scenario of an in-process, blocking unit: setup brings
    the counter to 1, the task to 2, the closure to 3, in that order, each
    of them finding the unit not joined, and the unit is joined afterwards. *)
Example in_process_run_order :
  let out := ProcessingUnit.run 5 ∅ ∅ ∅ (UnitScenario.local_unit, UnitScenario.local_host) in
  UnitScenario.outcome out
    = (Ok tt,
       [ESetJoined false;
        ESetup false (mkView false false);
        ETask Run false (mkView false false);
        EClosure false (mkView false false);
        ESetJoined true],
       []) /\
  world (snd (snd out)) !! "setup" = Some 1 /\
  world (snd (snd out)) !! "task" = Some 2 /\
  world (snd (snd out)) !! "closure" = Some 3 /\
  ProcessingUnit._joined (fst (snd out)) = true.
Proof. vm_compute. repeat split; reflexivity. Qed.

(** The sibling path: [start] on a unit in separate-process mode with
    coroutine callables goes through [start_coro], which runs the closure
    after the process has been launched. *)
Example start_coro_runs_closure_in_separate_process :
  let out := ProcessingUnit.start 5 ∅ ∅ ∅ (UnitScenario.remote_unit, UnitScenario.remote_host) in
  UnitScenario.outcome out
    = (Ok tt,
       [ECreateProcess;
        ESetJoined false;
        ESetup true (mkView false false);
        ETargetMethod Start; ECreateProcess; EProcessStart true;
        EClosure true (mkView false false);
        ESetJoined true],
       [RunThrough]) /\
  world (snd (snd out)) !! "closure" = Some 2.
Proof. vm_compute. repeat split; reflexivity. Qed.

(** C1. Every dispatch should run setup, task and closure in that order
    when they are allowed.  On a unit in separate-process mode whose setup
    and closure are coroutine functions, with [allow_setup] and
    [allow_closure] both true, [run] goes through [run_coro]: setup runs and
    the process is launched, but the closure never runs, because the
    closure block of [run_coro] sits inside the in-process branch. *)
Theorem run_coro_skips_closure_in_separate_process :
  let out := ProcessingUnit.run 5 ∅ ∅ ∅ (UnitScenario.remote_unit, UnitScenario.remote_host) in
  ProcessingUnit.separate_process UnitScenario.remote_unit = true /\
  ProcessingUnit.allow_setup UnitScenario.remote_unit = true /\
  ProcessingUnit.allow_closure UnitScenario.remote_unit = true /\
  UnitScenario.outcome out
    = (Ok tt,
       [ECreateProcess;
        ESetJoined false;
        ESetup true (mkView false false);
        ETargetMethod Run; ECreateProcess; EProcessStart true;
        ESetJoined true],
       []) /\
  world (snd (snd out)) !! "setup" = Some 1 /\
  world (snd (snd out)) !! "closure" = None.
Proof. vm_compute. repeat split; reflexivity. Qed.

(** The blocking path in separate-process mode has a defect of its own:
    with [await_closure] false, [run_normal] passes the unit's name as the
    category of its warning, which raises [TypeError] on a named unit before
    the closure is reached; [start_normal] warns and runs the closure. *)
Example run_normal_raises_before_closure :
  UnitScenario.outcome
    (ProcessingUnit.run 5 ∅ ∅ ∅
       (UnitScenario.remote_plain_unit, UnitScenario.remote_plain_host))
  = (Raise (TypeError "category must be a Warning subclass, not 'str'"),
     [ECreateProcess;
      ESetJoined false;
      ESetup false (mkView false false);
      ETargetMethod Run; ECreateProcess; EProcessStart true],
     []) /\
  UnitScenario.outcome
    (ProcessingUnit.start 5 ∅ ∅ ∅
       (UnitScenario.remote_plain_unit, UnitScenario.remote_plain_host))
  = (Ok tt,
     [ECreateProcess;
      ESetJoined false;
      ESetup false (mkView false false);
      ETargetMethod Start; ECreateProcess; EProcessStart true;
      EClosure false (mkView false false);
      ESetJoined true],
     [RunThrough]).
Proof. vm_compute. split; reflexivity. Qed.

(** C2. The joined flag should go back to true only once every allowed
    phase has completed.  On the same unit, [run] sets the flag to false
    first and to true last, but at that point the allowed closure has not
    run and never will: the unit reports itself joined with a phase of its
    sequence missing. *)
Theorem run_coro_joined_without_closure :
  let out := ProcessingUnit.run 5 ∅ ∅ ∅ (UnitScenario.remote_unit, UnitScenario.remote_host) in
  ProcessingUnit.allow_closure UnitScenario.remote_unit = true /\
  fst out = Ok tt /\
  ProcessingUnit._joined (fst (snd out)) = true /\
  trace (snd (snd out))
    = (trace UnitScenario.remote_host
       ++ [ESetJoined false;
           ESetup true (mkView false false);
           ETargetMethod Run; ECreateProcess; EProcessStart true;
           ESetJoined true])%list /\
  Forall (fun ev => forall a v, ev <> EClosure a v) (trace (snd (snd out))) /\
  world (snd (snd out)) !! "closure" = None.
Proof.
  vm_compute. repeat split; try reflexivity.
  repeat constructor; intros a v; discriminate.
Qed.

(** * Further properties *)

(** ** SeparateProcess: starting, restarting and closing *)

Lemma start_second_failure_propagates_witness :
  fst (SeparateProcess.start (Scenario.handle0, Scenario.host_failing)) = Raise OSError /\
  trace (snd (snd (SeparateProcess.start (Scenario.handle0, Scenario.host_failing))))
    = (trace Scenario.host_failing
       ++ [EProcessStart false; ECreateProcess; EProcessStart false])%list.
Proof.
  apply (start_second_failure_propagates Scenario.handle0
           (Process.mk "p" (Some Scenario.worker) (Some [VInt 1]) (Some Scenario.level)
              false None false)
           Scenario.worker [VInt 1] Scenario.level Scenario.host_failing []);
    vm_compute; reflexivity.
Defined.

(** X4. The first spawn of a never-started process fails and the second one
    succeeds: [start] returns normally after one recreation and two
    attempts, the handle holds a new, started process with the old daemon
    flag, and the old process object was never started. *)
Theorem start_recovers_after_one_failure (self : SeparateProcess.t) (p : Process.t)
    (tg : pyval) (a : list pyval) (k : gmap string pyval)
    (e : Env) (life : option Z) (rest : list spawn_outcome) :
  SeparateProcess._process self = Some p ->
  Process._closed p = false -> Process._popen p = None ->
  Process._target p = Some tg -> Process._args p = Some a ->
  Process._kwargs p = Some k ->
  spawns e = SpawnFails :: SpawnRuns life :: rest ->
  let out := SeparateProcess.start (self, e) in
  fst out = Ok tt /\
  trace (snd (snd out))
    = (trace e ++ [EProcessStart false; ECreateProcess; EProcessStart true])%list /\
  spawns (snd (snd out)) = rest /\
  created (snd (snd out)) = S (created e) /\
  exists q,
    SeparateProcess._process (fst (snd out)) = Some q /\
    Process.daemon q = Process.daemon p /\
    Process._closed q = false /\
    Process._popen q
      = Some (Process.mkPopen ((fun d => clock e + Z.max d 0) <$> life) 0).
Proof.
  intros Hp Hc Hpo Ht Ha Hk Hs. cbn zeta.
  destruct (start_retries_once self p tg a k e (SpawnRuns life :: rest)
              Hp Hc Hpo Ht Ha Hk Hs) as (q & _ & _ & _ & Q4 & Q5 & Q6 & ->).
  unfold SeparateProcess.process_start, bind, SeparateProcess.the_process.
  simpl. unfold Process.start. rewrite Q6, Q5. simpl.
  split; [reflexivity |]. split; [rewrite <- !app_assoc; reflexivity |].
  split; [reflexivity |]. split; [reflexivity |].
  eexists. split; [reflexivity |]. simpl. repeat split. exact Q4.
Qed.

Lemma start_recovers_after_one_failure_witness :
  fst (SeparateProcess.start (Scenario.handle0, Scenario.host_flaky)) = Ok tt.
Proof.
  refine (proj1 (start_recovers_after_one_failure Scenario.handle0
           (Process.mk "p" (Some Scenario.worker) (Some [VInt 1]) (Some Scenario.level)
              false None false)
           Scenario.worker [VInt 1] Scenario.level Scenario.host_flaky None []
           _ _ _ _ _ _ _));
    vm_compute; reflexivity.
Defined.

Lemma nonempty_dict_empty : nonempty_dict ∅ = false.
Proof. unfold nonempty_dict. rewrite map_to_list_empty. reflexivity. Qed.









(** ** SeparateProcess: construction and targets *)

Lemma nonempty_dict_insert (k : string) (v : pyval) (d : gmap string pyval) :
  nonempty_dict (<[k := v]> d) = true.
Proof.
  unfold nonempty_dict. destruct (map_to_list (<[k := v]> d)) eqn:E; [| reflexivity].
  apply map_to_list_empty_iff in E. exfalso. exact (insert_non_empty d k v E).
Qed.

Lemma handle_init_result (target : pyval) (name : option string)
    (args : list pyval) (kwargs : gmap string pyval) (daemon : option bool) (e : Env) :
  exists self p,
    SeparateProcess.__init__ target name args kwargs daemon false true e
      = (Ok self, emit ECreateProcess (set_created (S (created e)) e)) /\
    SeparateProcess._process self = Some p /\
    Process._target p = Some target /\
    Process._args p = Some args /\
    Process._kwargs p = Some kwargs /\
    Process.daemon p = default false daemon /\
    Process._name p = default ("Process-" +:+ pretty (S (created e))) name /\
    SeparateProcess.is_alive (self, emit ECreateProcess (set_created (S (created e)) e))
      = (Ok false, (self, emit ECreateProcess (set_created (S (created e)) e))).
Proof.
  unfold SeparateProcess.__init__, SeparateProcess.construct.
  set (self0 := SeparateProcess.mk SeparateProcess.run_method None ∅).
  assert (Hstep : exists self1,
            SeparateProcess._process self1 = None /\
            (match name with
             | Some n => SeparateProcess.setattr_wrapped "name" (VStr n)
                           (fun p => Ok (Process.set_name n p))
             | None => ret tt
             end) (self0, e) = (Ok tt, (self1, e))).
  { destruct name; eexists; split; try reflexivity; reflexivity. }
  destruct Hstep as (self1 & H1 & Hrun).
  unfold bind at 1. rewrite Hrun. cbn [negb].
  destruct (create_process_fresh self1 target name args kwargs daemon e H1)
    as (p & Hc & P1 & P2 & P3 & P4 & P5 & P6 & P7).
  rewrite Hc.
  exists (SeparateProcess.set_process_field (Some p) self1), p.
  split; [reflexivity |]. split; [reflexivity |].
  repeat (split; [assumption |]).
  unfold SeparateProcess.is_alive. simpl. unfold Process.is_alive. rewrite P7, P6.
  reflexivity.
Qed.


(** X2. With [delay] the constructor creates no process at all, whatever it is
    given: the host is untouched and [is_alive] answers false. *)
Theorem delayed_init_creates_no_process (target : pyval) (name : option string)
    (args : list pyval) (kwargs : gmap string pyval) (daemon : option bool) (e : Env) :
  exists self,
    SeparateProcess.__init__ target name args kwargs daemon true true e = (Ok self, e) /\
    SeparateProcess._process self = None /\
    SeparateProcess.is_alive (self, e) = (Ok false, (self, e)).
Proof.
  unfold SeparateProcess.__init__, SeparateProcess.construct.
  destruct name as [n |], (is_None target), args as [| a args],
    (nonempty_dict kwargs), daemon as [[|] |];
    simpl; eexists; repeat split; reflexivity.
Qed.

(** X3. Binding a method of an object as the target, over a process that has
    not been started: the new process runs the handle's method wrapper, its
    keyword arguments are the ones given with the object under ["obj"] and
    the method name under ["method"] (replacing any such entries of the
    caller), so the old keyword arguments are never inherited; positional
    arguments left empty are inherited from the old process. *)
Theorem target_object_method_binds (self : SeparateProcess.t) (old : Process.t)
    (tg0 : pyval) (a0 : list pyval) (k0 : gmap string pyval)
    (obj : pyval) (meth : string) (args : list pyval)
    (kwargs : gmap string pyval) (e : Env) :
  SeparateProcess._process self = Some old ->
  Process._target old = Some tg0 ->
  Process._args old = Some a0 ->
  Process._kwargs old = Some k0 ->
  is_None (SeparateProcess.method_wrapper self) = false ->
  exists p s bound,
    SeparateProcess.target_object_method obj meth args kwargs (self, e) = (Ok tt, s) /\
    SeparateProcess._process (fst s) = Some p /\
    Process._target p = Some (SeparateProcess.method_wrapper self) /\
    Process._kwargs p = Some bound /\
    bound !! "obj" = Some obj /\
    bound !! "method" = Some (VStr meth) /\
    (forall key, key <> "obj" -> key <> "method" -> bound !! key = kwargs !! key) /\
    Process._args p = Some (match args with [] => a0 | _ => args end) /\
    Process.daemon p = Process.daemon old /\
    Process._popen p = None.
Proof.
  intros Hp Ht Ha Hk Hw. unfold SeparateProcess.target_object_method.
  destruct (create_process_over self old tg0 a0 k0 (SeparateProcess.method_wrapper self)
              None args (<["method" := VStr meth]> (<["obj" := obj]> kwargs)) None e
              Hp Ht Ha Hk) as (p & Hc & P1 & P2 & P3 & P4 & P5 & P6 & P7).
  rewrite Hw in P1. rewrite nonempty_dict_insert in P3.
  exists p. eexists. exists (<["method" := VStr meth]> (<["obj" := obj]> kwargs)).
  split; [exact Hc |]. cbn [fst].
  split; [reflexivity |]. split; [exact P1 |]. split; [exact P3 |].
  split; [rewrite lookup_insert_ne by discriminate; apply lookup_insert_eq |].
  split; [apply lookup_insert_eq |].
  split.
  { intros key H1 H2. rewrite lookup_insert_ne by congruence.
    rewrite lookup_insert_ne by congruence. reflexivity. }
  split; [exact P2 |]. split; [exact P4 |]. exact P6.
Qed.

Lemma target_object_method_binds_witness :
  exists p s bound,
    SeparateProcess.target_object_method (VObj "task") "run" [] ∅
      (Scenario.handle0, Scenario.host1) = (Ok tt, s) /\
    SeparateProcess._process (fst s) = Some p /\
    Process._target p = Some SeparateProcess.run_method /\
    Process._kwargs p = Some bound /\
    bound !! "obj" = Some (VObj "task").
Proof.
  destruct (target_object_method_binds Scenario.handle0
              (Process.mk "p" (Some Scenario.worker) (Some [VInt 1]) (Some Scenario.level)
                 false None false)
              Scenario.worker [VInt 1] Scenario.level (VObj "task") "run" [] ∅
              Scenario.host1)
    as (p & s & bound & H1 & H2 & H3 & H4 & H5 & _);
    try (vm_compute; reflexivity).
  exists p, s, bound. repeat split; assumption.
Defined.


(** ** SeparateProcess: more on waiting *)

(** X9. [join] needs a process that has been started: without any process the
    call on [None] raises [AttributeError], and on a process that was never
    started [Process.join] refuses; neither issues a warning. *)
Theorem join_before_start_raises (self : SeparateProcess.t) (timeout : option Z) (e : Env) :
  (SeparateProcess._process self = None ->
   SeparateProcess.join timeout (self, e)
     = (Raise (AttributeError "join"), (self, emit (EHandleJoin timeout) e))) /\
  (forall p, SeparateProcess._process self = Some p ->
     Process._closed p = false -> Process._popen p = None ->
     SeparateProcess.join timeout (self, e)
       = (Raise (AssertionError "can only join a started process"),
          (self, emit (EHandleJoin timeout) e))).
Proof.
  split.
  - intros Hp. unfold SeparateProcess.join, bind, host, SeparateProcess.the_process.
    rewrite Hp. reflexivity.
  - intros p Hp Hc Hpo.
    unfold SeparateProcess.join, bind, host, SeparateProcess.the_process.
    rewrite Hp. unfold Process.join. rewrite Hc, Hpo. reflexivity.
Qed.

Lemma join_before_start_raises_witness :
  SeparateProcess.join (Some 5) (Scenario.handle0, Scenario.host1)
    = (Raise (AssertionError "can only join a started process"),
       (Scenario.handle0, emit (EHandleJoin (Some 5)) Scenario.host1)).
Proof.
  refine (proj2 (join_before_start_raises Scenario.handle0 (Some 5) Scenario.host1)
            (Process.mk "p" (Some Scenario.worker) (Some [VInt 1]) (Some Scenario.level)
               false None false) _ _ _); vm_compute; reflexivity.
Defined.

(** X10. Once the child has exited, waiting costs nothing: [join] and
    [join_async] return at once whatever the timeout, without sleeping,
    without letting time pass and without a warning. *)
Theorem join_of_exited_process_returns_at_once (self : SeparateProcess.t)
    (c : Process.Popen) (code : Z) (e : Env) (timeout : option Z) (polls : nat)
    (interval : Z) :
  wraps_started self c ->
  Process.poll c (clock e) = Some code ->
  SeparateProcess.join timeout (self, e)
    = (Ok tt, (self, emit (EHandleJoin timeout) e)) /\
  SeparateProcess.join_async polls timeout interval (self, e)
    = (Ok tt, (self, emit (EHandleJoinAsync timeout) e)).
Proof.
  intros Hw Hcode. pose proof Hw as (p & Hp & Hc & Hpo). split.
  - unfold SeparateProcess.join, bind, host, SeparateProcess.the_process.
    rewrite Hp. unfold Process.join. rewrite Hc, Hpo.
    change (clock (emit (EHandleJoin timeout) e)) with (clock e). rewrite Hcode.
    rewrite (process_exitcode_started self c _ Hw).
    change (clock (emit (EHandleJoin timeout) e)) with (clock e). rewrite Hcode.
    reflexivity.
  - unfold SeparateProcess.join_async, bind, host, perf_counter.
    rewrite (join_async_loop_unfold self c polls _ timeout interval _ Hw).
    change (clock (emit (EHandleJoinAsync timeout) e)) with (clock e). rewrite Hcode.
    reflexivity.
Qed.

Lemma join_of_exited_process_returns_at_once_witness :
  SeparateProcess.join None (Scenario.handle_started, Scenario.host_started)
    = (Ok tt, (Scenario.handle_started, emit (EHandleJoin None) Scenario.host_started)).
Proof.
  refine (proj1 (join_of_exited_process_returns_at_once Scenario.handle_started
            (Process.mkPopen (Some 0) 0) 0 Scenario.host_started None 0 0 _ _)).
  - exists (Process.mk "p" None None None false (Some (Process.mkPopen (Some 0) 0)) false).
    vm_compute. repeat split; reflexivity.
  - reflexivity.
Defined.

(** X11. [join_async] checks the clock right after each sleep and before it
    looks at the child again: with a timeout no longer than one sleep, it
    sleeps once and warns, even when the child exited during that sleep. *)
Theorem join_async_warns_after_one_sleep (self : SeparateProcess.t)
    (c : Process.Popen) (e : Env) (T interval : Z) (n : nat) :
  wraps_started self c ->
  Process.poll c (clock e) = None ->
  T <= Z.max interval 0 + tick e ->
  SeparateProcess.join_async (S n) (Some T) interval (self, e)
    = (Ok tt, (self, warn timeout_warning
                       (sleep interval (emit (EHandleJoinAsync (Some T)) e)))).
Proof.
  intros Hw Hrun HT.
  unfold SeparateProcess.join_async, bind, host, perf_counter.
  rewrite (join_async_loop_unfold self c (S n) _ (Some T) interval _ Hw).
  change (clock (emit (EHandleJoinAsync (Some T)) e)) with (clock e). rewrite Hrun.
  assert (Ht : timed_out (Some T) (clock e)
                 (clock (sleep interval (emit (EHandleJoinAsync (Some T)) e))) = true).
  { unfold timed_out. rewrite clock_sleep. apply Z.leb_le.
    change (clock (emit (EHandleJoinAsync (Some T)) e)) with (clock e).
    change (tick (emit (EHandleJoinAsync (Some T)) e)) with (tick e). lia. }
  rewrite Ht. reflexivity.
Qed.

(** A child that exits at time 2, awaited with a timeout of 3 and an
    interval of 5: it has exited when [join_async] returns, which warns all
    the same. *)
Example join_async_warns_about_exited_child :
  let host := mkEnv 0 1 [SpawnRuns (Some 2)] 0 [] [] ∅ in
  let started := Scenario.then_ (Scenario.made host) SeparateProcess.start in
  let out := SeparateProcess.join_async 3 (Some 3) 5
               (Scenario.value_of started Scenario.blank, snd started) in
  fst out = Ok tt /\
  warned (snd (snd out)) = [timeout_warning] /\
  fst (SeparateProcess.is_alive (snd out)) = Ok false.
Proof. vm_compute. repeat split; reflexivity. Qed.

Lemma join_async_warns_after_one_sleep_witness :
  SeparateProcess.join_async 1 (Some 1) 0 (Scenario.handle_running, Scenario.host_running)
    = (Ok tt, (Scenario.handle_running,
               warn timeout_warning
                 (sleep 0 (emit (EHandleJoinAsync (Some 1)) Scenario.host_running)))).
Proof.
  apply (join_async_warns_after_one_sleep Scenario.handle_running
           (Process.mkPopen None 0) Scenario.host_running 1 0 0).
  - exists (Process.mk "p" None None None false (Some (Process.mkPopen None 0)) false).
    vm_compute. repeat split; reflexivity.
  - reflexivity.
  - vm_compute. discriminate.
Defined.





(** ** ProcessingUnit: a process is launched once *)

Lemma fails_from_bind_l {S A B} (Q : S -> Prop) (m : M S A) (k : A -> M S B) :
  fails_from Q m -> fails_from Q (bind m k).
Proof.
  intros Hm s Hs. destruct (Hm s Hs) as [Hno HQ]. unfold bind.
  destruct (m s) as [[a | x |] s']; simpl in *.
  - exfalso. exact (Hno a eq_refl).
  - split; [intros a; discriminate | exact HQ].
  - split; [intros a; discriminate | exact HQ].
Qed.

Lemma fails_from_bind_r {S A B} (Q : S -> Prop) (m : M S A) (k : A -> M S B) :
  preserves Q m -> (forall a, fails_from Q (k a)) -> fails_from Q (bind m k).
Proof.
  intros Hm Hk s Hs. specialize (Hm s Hs). unfold bind.
  destruct (m s) as [[a | x |] s']; simpl in *.
  - apply Hk. exact Hm.
  - split; [intros a; discriminate | exact Hm].
  - split; [intros a; discriminate | exact Hm].
Qed.

Lemma fails_from_bind_get {S B} (Q : S -> Prop) (k : S -> M S B) :
  (forall s, Q s -> (forall a, fst (k s s) <> Ok a) /\ Q (snd (k s s))) ->
  fails_from Q (bind get k).
Proof. intros H s Hs. unfold bind, get. apply H. exact Hs. Qed.

Section Launched.
Import ProcessingUnit.
Variable sp : SeparateProcess.t.
Variable c : Process.Popen.
Hypothesis Hsp : wraps_launched sp c.
Let Q := launched_unjoined sp.

Lemma launched_is_alive (e : Env) :
  SeparateProcess.is_alive (sp, e)
    = (Ok (match Process.poll c (clock e) with Some _ => false | None => true end),
       (sp, e)).
Proof.
  destruct Hsp as (p & Hp & Hc & Hpo & _).
  unfold SeparateProcess.is_alive. rewrite Hp. unfold Process.is_alive.
  rewrite Hc, Hpo. reflexivity.
Qed.

Lemma launched_is_processing (u : t) (e : Env) :
  launched_unit sp (u, e) ->
  is_processing (u, e)
    = (Ok (match Process.poll c (clock e) with Some _ => false | None => true end),
       (with_is_processing
          (match Process.poll c (clock e) with Some _ => false | None => true end)
          (with_process (Some sp) u), e)).
Proof.
  intros (Hs & Hp). cbn [fst] in Hs, Hp. unfold is_processing.
  rewrite Hp, Hs, launched_is_alive. reflexivity.
Qed.

Lemma launched_execute f kw : preserves Q (execute f kw).
Proof.
  intros [u e] H. unfold execute.
  destruct (f (view u) kw (world e)); exact H.
Qed.

Lemma launched_run_body ev f kw : preserves Q (run_body ev f kw).
Proof.
  unfold run_body. apply preserves_bind; [apply preserves_get | intros s].
  apply preserves_bind; [| intros _; apply launched_execute].
  intros [u e] H. exact H.
Qed.

Lemma launched_call ev f kw : preserves Q (call ev f kw).
Proof.
  unfold call. destruct (iscoroutinefunction f);
    [apply preserves_ret | apply launched_run_body].
Qed.

Lemma launched_await_or_call ev f kw : preserves Q (await_or_call ev f kw).
Proof.
  unfold await_or_call. destruct (iscoroutinefunction f); apply launched_run_body.
Qed.

Lemma launched_create_process_raises (self : SeparateProcess.t) target name kwargs
    daemon (e : Env) :
  wraps_launched self c ->
  nonempty_dict kwargs = true ->
  SeparateProcess.create_process target name [] kwargs daemon (self, e)
    = (Raise (AttributeError "_args"), (self, e)).
Proof.
  intros (p & Hp & _ & _ & Ha) Hk. unfold SeparateProcess.create_process.
  rewrite Hp. unfold SeparateProcess.previous_attributes. rewrite Ha. reflexivity.
Qed.

Lemma launched_target (u : t) (e : Env) obj meth kw :
  process u = Some sp ->
  on_process "target_object_method"
    (SeparateProcess.target_object_method obj meth [] kw) (u, e)
  = (Raise (AttributeError "_args"), (with_process (Some sp) u, e)).
Proof.
  intros Hp. unfold on_process. rewrite Hp.
  unfold SeparateProcess.target_object_method. cbv beta iota zeta.
  rewrite launched_create_process_raises;
    [reflexivity | exact Hsp | apply nonempty_dict_insert].
Qed.

(** The task phase of a unit whose process has been launched raises:
    [TypeError] out of the [task_object] property while the child is alive,
    [AttributeError] out of the recreation of the process afterwards. *)
Lemma launched_remote_task_result (m : method) (kw : gmap string pyval) (u : t) (e : Env) :
  launched_unit sp (u, e) ->
  remote_task m kw (u, e)
  = match Process.poll c (clock e) with
    | Some _ =>
        (Raise (AttributeError "_args"),
         (with_process (Some sp) (with_is_processing false (with_process (Some sp) u)),
          emit (ETargetMethod m) e))
    | None =>
        (Raise warn_without_message,
         (with_is_processing true (with_process (Some sp) u), e))
    end.
Proof.
  intros Hl. pose proof Hl as (Hs & Hp). cbn [fst] in Hs, Hp.
  unfold remote_task, task_object, bind, get. cbn [fst]. rewrite Hp.
  rewrite (launched_is_processing u e Hl).
  destruct (Process.poll c (clock e)) as [code |]; [| reflexivity].
  unfold ret, host. cbv beta iota zeta.
  rewrite launched_target by reflexivity. reflexivity.
Qed.

Lemma launched_remote_task (m : method) (kw : gmap string pyval) :
  fails_from Q (remote_task m kw).
Proof.
  intros [u e] [Hl Hj]. pose proof Hl as (Hs & Hp). cbn [fst] in Hs, Hp, Hj.
  rewrite (launched_remote_task_result m kw u e Hl).
  destruct (Process.poll c (clock e)) as [code |];
    (split; [intros a; discriminate |]);
    repeat split; cbn; first [assumption | reflexivity].
Qed.

Lemma launched_setup_phase (plain : bool) :
  preserves Q
    (bind get (fun self =>
       when (allow_setup (fst self))
         (if plain
          then call (ESetup false) (_execute_setup (fst self)) (unit_setup_kwargs (fst self))
          else await_or_call ESetup (_execute_setup (fst self))
                 (unit_setup_kwargs (fst self))))).
Proof.
  apply preserves_bind; [apply preserves_get | intros s].
  apply preserves_when. destruct plain;
    [apply launched_call | apply launched_await_or_call].
Qed.

Lemma launched_after_set_joined (k : M (t * Env) unit) (u : t) (e : Env) :
  launched_unit sp (u, e) ->
  fails_from Q k ->
  (forall a, fst (bind (set_joined false) (fun _ => k) (u, e)) <> Ok a) /\
  _joined (fst (snd (bind (set_joined false) (fun _ => k) (u, e)))) = false.
Proof.
  intros (Hs & Hp) Hk. unfold bind, set_joined.
  destruct (Hk (with_joined false u, emit (ESetJoined false) e)) as [Hno [_ Hj]].
  { split; [split |]; cbn; assumption || reflexivity. }
  split; [exact Hno | exact Hj].
Qed.

Lemma launched_normal (m : method) (sk tk ck : gmap string pyval) (u : t) (e : Env) :
  launched_unit sp (u, e) ->
  let d := match m with Run => run_normal sk tk ck | Start => start_normal sk tk ck end in
  (forall a, fst (d (u, e)) <> Ok a) /\ _joined (fst (snd (d (u, e)))) = false.
Proof.
  intros Hl. cbn zeta.
  destruct m; unfold run_normal, start_normal;
    apply launched_after_set_joined; try exact Hl;
    (apply fails_from_bind_get; intros [u1 e1] H1; cbn [fst];
     apply (fails_from_bind_r Q); [apply preserves_when, launched_call | intros _ | exact H1];
     apply fails_from_bind_get; intros [u2 e2] H2; cbn [fst];
     pose proof H2 as [[K2 _] _]; cbn [fst] in K2; rewrite K2;
     apply (fails_from_bind_l Q); [apply launched_remote_task | exact H2]).
Qed.

Lemma launched_coro (m : method) (polls : nat) (sk tk ck : gmap string pyval)
    (u : t) (e : Env) :
  launched_unit sp (u, e) ->
  let d := match m with
           | Run => run_coro polls sk tk ck
           | Start => start_coro polls sk tk ck
           end in
  (forall a, fst (d (u, e)) <> Ok a) /\ _joined (fst (snd (d (u, e)))) = false.
Proof.
  intros Hl. cbn zeta.
  destruct m; unfold run_coro, start_coro;
    apply launched_after_set_joined; try exact Hl;
    (apply fails_from_bind_get; intros [u1 e1] H1; cbn [fst];
     apply (fails_from_bind_r Q);
       [apply preserves_when, launched_await_or_call | intros _ | exact H1];
     apply fails_from_bind_get; intros [u2 e2] H2; cbn [fst];
     pose proof H2 as [[K2 _] _]; cbn [fst] in K2; rewrite K2;
     apply (fails_from_bind_l Q); [apply launched_remote_task | exact H2]).
Qed.

Lemma launched_is_async (u : t) (e : Env) :
  launched_unit sp (u, e) ->
  exists b, is_async (u, e) = (Ok b, (u, e)).
Proof.
  intros (Hs & _). cbn [fst] in Hs. unfold is_async, bind, get. cbn [fst].
  rewrite Hs.
  destruct (iscoroutinefunction (_execute_setup u) || iscoroutinefunction (_execute_closure u));
    eexists; reflexivity.
Qed.

End Launched.

(** X22. Once the process of a unit in separate-process mode has been started,
    no dispatch on that unit ever completes again: whichever of [run],
    [start], [run_coro], [start_coro], [run_normal] or [start_normal] is
    used, the call does not return normally, and the unit is left with its
    joined flag false. *)
Theorem launched_unit_cannot_be_dispatched_again (u : ProcessingUnit.t)
    (sp : SeparateProcess.t) (c : Process.Popen) (e : Env) (polls : nat)
    (s t k : gmap string pyval) (d : M (ProcessingUnit.t * Env) unit) :
  ProcessingUnit.separate_process u = true ->
  ProcessingUnit.process u = Some sp ->
  wraps_launched sp c ->
  In d (dispatches polls s t k) ->
  (forall a, fst (d (u, e)) <> Ok a) /\
  ProcessingUnit._joined (fst (snd (d (u, e)))) = false.
Proof.
  intros Hs Hp Hw Hd.
  assert (Hl : launched_unit sp (u, e)) by (split; assumption).
  unfold dispatches in Hd. simpl in Hd.
  destruct Hd as [<- | [<- | [<- | [<- | [<- | [<- | []]]]]]].
  - unfold ProcessingUnit.run, bind.
    destruct (launched_is_async sp u e Hl) as [b ->].
    destruct b; [exact (launched_coro sp c Hw Run polls s t k u e Hl)
                | exact (launched_normal sp c Hw Run s t k u e Hl)].
  - unfold ProcessingUnit.start, bind.
    destruct (launched_is_async sp u e Hl) as [b ->].
    destruct b; [exact (launched_coro sp c Hw Start polls s t k u e Hl)
                | exact (launched_normal sp c Hw Start s t k u e Hl)].
  - exact (launched_coro sp c Hw Run polls s t k u e Hl).
  - exact (launched_coro sp c Hw Start polls s t k u e Hl).
  - exact (launched_normal sp c Hw Run s t k u e Hl).
  - exact (launched_normal sp c Hw Start s t k u e Hl).
Qed.

Lemma launched_unit_cannot_be_dispatched_again_witness :
  (forall a,
     fst (ProcessingUnit.start 5 ∅ ∅ ∅
            (UnitScenario.dispatched_unit, UnitScenario.dispatched_host)) <> Ok a) /\
  ProcessingUnit._joined
    (fst (snd (ProcessingUnit.start 5 ∅ ∅ ∅
                 (UnitScenario.dispatched_unit, UnitScenario.dispatched_host)))) = false.
Proof.
  refine (launched_unit_cannot_be_dispatched_again UnitScenario.dispatched_unit
            UnitScenario.dispatched_handle (Process.mkPopen (Some 0) 0)
            UnitScenario.dispatched_host 5 ∅ ∅ ∅ _ _ _ _ _).
  - vm_compute. reflexivity.
  - vm_compute. reflexivity.
  - exists UnitScenario.dispatched_process. vm_compute. repeat split; reflexivity.
  - right. left. reflexivity.
Defined.

(** The first [start] of that unit returns normally; the second one, after
    the child has exited, raises out of the recreation of the process. *)
Example second_start_raises :
  Scenario.returned UnitScenario.dispatched = true /\
  fst (ProcessingUnit.start 5 ∅ ∅ ∅
         (UnitScenario.dispatched_unit, UnitScenario.dispatched_host))
    = Raise (AttributeError "_args").
Proof. vm_compute. split; reflexivity. Qed.

(** ** ProcessingUnit: while the process is alive *)

Lemma started_is_alive (sp : SeparateProcess.t) (c : Process.Popen) (e : Env) :
  wraps_started sp c ->
  SeparateProcess.is_alive (sp, e)
    = (Ok (match Process.poll c (clock e) with Some _ => false | None => true end),
       (sp, e)).
Proof.
  intros (p & Hp & Hc & Hpo).
  unfold SeparateProcess.is_alive. rewrite Hp. unfold Process.is_alive.
  rewrite Hc, Hpo. reflexivity.
Qed.

(** X23. While the child of a unit in separate-process mode is alive,
    [is_processing] answers true and the [task_object] property cannot be
    read: its warning is issued without a message, which raises
    [TypeError].  [reset] therefore raises too, before the task object is
    reached. *)
Theorem task_object_raises_while_process_alive (u : ProcessingUnit.t)
    (sp : SeparateProcess.t) (c : Process.Popen) (e : Env) :
  ProcessingUnit.separate_process u = true ->
  ProcessingUnit.process u = Some sp ->
  wraps_started sp c ->
  Process.poll c (clock e) = None ->
  fst (ProcessingUnit.is_processing (u, e)) = Ok true /\
  fst (ProcessingUnit.task_object (u, e)) = Raise ProcessingUnit.warn_without_message /\
  fst (ProcessingUnit.reset (u, e)) = Raise ProcessingUnit.warn_without_message /\
  snd (snd (ProcessingUnit.reset (u, e))) = e.
Proof.
  intros Hs Hp Hw Hrun.
  assert (Hip : ProcessingUnit.is_processing (u, e)
                = (Ok true,
                   (ProcessingUnit.with_is_processing true
                      (ProcessingUnit.with_process (Some sp) u), e))).
  { unfold ProcessingUnit.is_processing. rewrite Hp, Hs.
    rewrite (started_is_alive sp c e Hw), Hrun. reflexivity. }
  assert (Hto : ProcessingUnit.task_object (u, e)
                = (Raise ProcessingUnit.warn_without_message,
                   (ProcessingUnit.with_is_processing true
                      (ProcessingUnit.with_process (Some sp) u), e))).
  { unfold ProcessingUnit.task_object, bind. rewrite Hip. reflexivity. }
  split; [rewrite Hip; reflexivity |].
  split; [rewrite Hto; reflexivity |].
  unfold ProcessingUnit.reset, ProcessingUnit.the_task, bind. rewrite Hto.
  split; reflexivity.
Qed.

Lemma task_object_raises_while_process_alive_witness :
  fst (ProcessingUnit.task_object (UnitScenario.busy_unit, UnitScenario.busy_host))
    = Raise ProcessingUnit.warn_without_message /\
  fst (ProcessingUnit.reset (UnitScenario.busy_unit, UnitScenario.busy_host))
    = Raise ProcessingUnit.warn_without_message.
Proof.
  refine ((fun H => conj (proj1 (proj2 H)) (proj1 (proj2 (proj2 H))))
            (task_object_raises_while_process_alive UnitScenario.busy_unit
               UnitScenario.busy_handle (Process.mkPopen None 0) UnitScenario.busy_host
               _ _ _ _)).
  - vm_compute. reflexivity.
  - vm_compute. reflexivity.
  - exists UnitScenario.busy_process. vm_compute. repeat split; reflexivity.
  - reflexivity.
Defined.



(** ** ProcessingUnit: giving up on the joined flag *)

Lemma trace_poll_turn_eq (e : Env) :
  trace (ProcessingUnit.poll_turn e) = (trace e ++ [EPoll])%list.
Proof. reflexivity. Qed.

Lemma join_loop_gives_up (u : ProcessingUnit.t) (start_time T : Z) (n : nat) :
  ProcessingUnit._joined u = false ->
  forall e,
    0 < tick e ->
    T - (clock e - start_time) <= Z.of_nat (S n) * tick e ->
    exists k e',
      ProcessingUnit.join_loop (S n) start_time (Some T) (u, e) = (Ok false, (u, e')) /\
      trace e' = (trace e ++ repeat EPoll (S k))%list /\
      T <= clock e' - start_time /\
      warned e' = warned e /\ world e' = world e.
Proof.
  intros Hj. induction n as [| n IH]; intros e Htick Hbound.
  - exists 0%nat, (ProcessingUnit.poll_turn e).
    cbn [ProcessingUnit.join_loop]. unfold bind, get, host, perf_counter.
    cbn [fst]. rewrite Hj.
    assert (Ht : timed_out (Some T) start_time (clock (ProcessingUnit.poll_turn e)) = true).
    { unfold timed_out. apply Z.leb_le. simpl. lia. }
    rewrite Ht. repeat split.
    apply Z.leb_le in Ht. exact Ht.
  - change (ProcessingUnit.join_loop (S (S n)) start_time (Some T) (u, e))
      with (bind get (fun self =>
              if ProcessingUnit._joined (fst self) then ret true
              else bind (host ProcessingUnit.poll_turn) (fun _ =>
                   bind perf_counter (fun now =>
                     if timed_out (Some T) start_time now then ret false
                     else ProcessingUnit.join_loop (S n) start_time (Some T)))) (u, e)).
    unfold bind at 1. unfold get. cbn [fst]. rewrite Hj.
    unfold bind at 1. unfold host. unfold bind at 1. unfold perf_counter.
    destruct (timed_out (Some T) start_time (clock (ProcessingUnit.poll_turn e))) eqn:Et.
    + exists 0%nat, (ProcessingUnit.poll_turn e). repeat split.
      apply Z.leb_le in Et. exact Et.
    + destruct (IH (ProcessingUnit.poll_turn e)) as (k & e' & Heq & Htr & Hcl & Hw & Hwo).
      * exact Htick.
      * simpl. simpl in Htick. lia.
      * exists (S k), e'. split; [exact Heq |].
        split.
        { rewrite Htr, trace_poll_turn_eq, <- app_assoc. reflexivity. }
        repeat split; assumption.
Qed.

(** X25. A [join] with a timeout on a unit whose joined flag stays false gives
    up once the timeout has passed: it returns normally, without a warning
    and without ever touching the process handle, even in separate-process
    mode; the caller gets nothing that tells this from a completed join. *)
Theorem join_gives_up_without_joining_the_process (u : ProcessingUnit.t) (e : Env)
    (T : Z) (n : nat) :
  ProcessingUnit._joined u = false ->
  0 < tick e ->
  T <= Z.of_nat (S n) * tick e ->
  exists k e',
    ProcessingUnit.join (S n) (Some T) (u, e) = (Ok tt, (u, e')) /\
    trace e' = (trace e ++ repeat EPoll (S k))%list /\
    T <= clock e' - clock e /\
    warned e' = warned e /\ world e' = world e.
Proof.
  intros Hj Htick Hbound.
  destruct (join_loop_gives_up u (clock e) T n Hj e Htick) as (k & e' & Heq & H).
  { lia. }
  exists k, e'. split; [| exact H].
  unfold ProcessingUnit.join, bind, perf_counter. rewrite Heq. reflexivity.
Qed.

Lemma join_gives_up_without_joining_the_process_witness :
  exists k e',
    ProcessingUnit.join 3 (Some 2)
      (ProcessingUnit.with_joined false UnitScenario.remote_plain_unit,
       UnitScenario.remote_plain_host)
    = (Ok tt, (ProcessingUnit.with_joined false UnitScenario.remote_plain_unit, e')) /\
    trace e' = (trace UnitScenario.remote_plain_host ++ repeat EPoll (S k))%list.
Proof.
  destruct (join_gives_up_without_joining_the_process
              (ProcessingUnit.with_joined false UnitScenario.remote_plain_unit)
              UnitScenario.remote_plain_host 2 2) as (k & e' & H1 & H2 & _).
  - reflexivity.
  - reflexivity.
  - vm_compute. discriminate.
  - exists k, e'. split; assumption.
Defined.

(** ** ProcessingUnit: configuring setup and closure *)

(** X17. [set_setup] and [set_closure] always replace the callable, but replace
    the stored keyword arguments only when given a non-empty dictionary:
    keyword arguments set earlier survive a later call without any, so they
    cannot be cleared this way. *)
Theorem set_setup_keeps_earlier_kwargs (u : ProcessingUnit.t) (e : Env)
    (f g : ProcessingUnit.callable) (kw : gmap string pyval) :
  nonempty_dict kw = true ->
  let configured (m1 m2 : M (ProcessingUnit.t * Env) unit) :=
    fst (snd (bind m1 (fun _ => m2) (u, e))) in
  ProcessingUnit._execute_setup
    (configured (ProcessingUnit.set_setup f kw) (ProcessingUnit.set_setup g ∅)) = g /\
  ProcessingUnit.unit_setup_kwargs
    (configured (ProcessingUnit.set_setup f kw) (ProcessingUnit.set_setup g ∅)) = kw /\
  ProcessingUnit._execute_closure
    (configured (ProcessingUnit.set_closure f kw) (ProcessingUnit.set_closure g ∅)) = g /\
  ProcessingUnit.unit_closure_kwargs
    (configured (ProcessingUnit.set_closure f kw) (ProcessingUnit.set_closure g ∅)) = kw /\
  ProcessingUnit.unit_setup_kwargs
    (fst (snd (ProcessingUnit.set_setup g ∅ (u, e)))) = ProcessingUnit.unit_setup_kwargs u.
Proof.
  intros Hk. cbn zeta.
  unfold ProcessingUnit.set_setup, ProcessingUnit.set_closure, bind, modify.
  cbn. rewrite Hk, nonempty_dict_empty. cbn. repeat split; reflexivity.
Qed.

Lemma set_setup_keeps_earlier_kwargs_witness :
  ProcessingUnit.unit_setup_kwargs
    (fst (snd (bind (ProcessingUnit.set_setup ProcessingUnit.setup Scenario.level)
                 (fun _ => ProcessingUnit.set_setup ProcessingUnit.closure ∅)
                 (UnitScenario.local_unit, UnitScenario.local_host))))
  = Scenario.level.
Proof.
  refine (proj1 (proj2 (set_setup_keeps_earlier_kwargs UnitScenario.local_unit
            UnitScenario.local_host ProcessingUnit.setup ProcessingUnit.closure
            Scenario.level _))).
  vm_compute. reflexivity.
Defined.

(** ** ProcessingUnit and ProcessingCluster: construction *)

Section UnitInit.
Import ProcessingUnit.

Lemma unit_new_process_step (name_arg : option string)
    (separate daemon allow_setup_arg allow_closure_arg : bool)
    (p_kwargs : gmap string pyval) (e : Env) :
  let self0 := unit_before_construct name_arg separate allow_setup_arg allow_closure_arg in
  exists self1 e',
    when separate (new_process name_arg daemon p_kwargs) (self0, e) = (Ok tt, (self1, e')) /\
    self1 = with_process (process self1) self0 /\
    unit_process_built name_arg separate daemon p_kwargs e self1 e' /\
    is_processing (self1, e') = (Ok false, (self1, e')).
Proof.
  cbn zeta. unfold unit_before_construct.
  set (e1 := emit ECreateProcess (set_created (S (created e)) e)).
  destruct separate eqn:Hsep.
  - destruct (handle_init_result VNone name_arg [] p_kwargs (Some daemon) e)
      as (sp & p & Hi & Hp & Ht & Ha & Hk & Hd & Hn & Hal).
    exists (mk name_arg ∅ ∅ allow_setup_arg allow_closure_arg false
              true false (Some sp) setup None closure true), e1.
    assert (Hname : match name_arg with None => name_arg | Some _ => name_arg end = name_arg)
      by (destruct name_arg; reflexivity).
    split.
    { unfold when, new_process. cbn [name]. rewrite Hname, Hi. reflexivity. }
    split; [reflexivity |].
    split.
    { red. cbn [process]. split; [reflexivity |]. split; [reflexivity |].
      exists p. repeat (split; [assumption |]). exact Hal. }
    unfold is_processing. cbn [process separate_process]. fold e1 in Hal.
    rewrite Hal. reflexivity.
  - exists (mk name_arg ∅ ∅ allow_setup_arg allow_closure_arg false
              false false None setup None closure true), e.
    split; [reflexivity |]. split; [reflexivity |].
    split; [red; cbn; split; reflexivity | reflexivity].
Qed.

Lemma unit_construct_result (name_arg : option string)
    (separate daemon allow_setup_arg allow_closure_arg : bool)
    (p_kwargs : gmap string pyval) (e : Env) D (task : option Task)
    (to_kwargs : gmap string pyval) :
  let self0 := unit_before_construct name_arg separate allow_setup_arg allow_closure_arg in
  exists self1 e',
    self1 = with_process (process self1) self0 /\
    unit_process_built name_arg separate daemon p_kwargs e self1 e' /\
    construct D name_arg task to_kwargs daemon p_kwargs (self0, e)
    = match task, D with
      | Some k, _ => (Ok tt, (with_task_object (Some k) self1, e'))
      | None, Some make =>
          (Ok tt, (with_task_object (Some (make name_arg to_kwargs)) self1, e'))
      | None, None => (Raise (TypeError "'NoneType' object is not callable"), (self1, e'))
      end.
Proof.
  cbn zeta.
  destruct (unit_new_process_step name_arg separate daemon allow_setup_arg
              allow_closure_arg p_kwargs e) as (self1 & e' & Hstep & Hself & Hbuilt & Hip).
  set (self0 := unit_before_construct name_arg separate allow_setup_arg allow_closure_arg)
    in *.
  exists self1, e'. split; [exact Hself |]. split; [exact Hbuilt |].
  assert (Hnone : _task_object self1 = None) by (rewrite Hself; reflexivity).
  assert (Hn : name self1 = name_arg) by (rewrite Hself; reflexivity).
  unfold construct. unfold bind at 1. unfold get. cbn [fst separate_process].
  change (separate_process self0) with separate.
  unfold bind at 1. rewrite Hstep.
  destruct task as [k |].
  - unfold set_task_object, bind. rewrite Hip. reflexivity.
  - unfold task_object. unfold bind at 1. unfold bind at 1. rewrite Hip.
    unfold bind at 1. unfold get, ret. cbn [fst]. rewrite Hnone.
    destruct D as [make |]; [| reflexivity].
    unfold default_task_object, bind, get. cbn [fst]. rewrite Hn.
    unfold set_task_object, bind. rewrite Hip. reflexivity.
Qed.

End UnitInit.


(** X15. [ProcessingUnit()] without a task cannot be constructed: this class
    has no default task class, and calling [None] raises [TypeError].  In
    separate-process mode the process object has been created by then. *)
Theorem unit_init_without_task_raises (name_arg : option string)
    (to_kwargs p_kwargs : gmap string pyval)
    (separate daemon allow_setup_arg allow_closure_arg : bool) (e : Env) :
  exists msg,
    fst (ProcessingUnit.__init__ None name_arg None to_kwargs separate daemon p_kwargs
           allow_setup_arg allow_closure_arg true e) = Raise (TypeError msg) /\
    created (snd (ProcessingUnit.__init__ None name_arg None to_kwargs separate daemon
                    p_kwargs allow_setup_arg allow_closure_arg true e))
    = if separate then S (created e) else created e.
Proof.
  destruct (unit_construct_result name_arg separate daemon allow_setup_arg
              allow_closure_arg p_kwargs e None None to_kwargs)
    as (self1 & e' & Hself & Hbuilt & Hc).
  eexists. cbn zeta in Hc. unfold unit_before_construct in Hc.
  unfold ProcessingUnit.__init__. rewrite Hc. split; [reflexivity |].
  cbn [snd]. unfold unit_process_built in Hbuilt.
  destruct (ProcessingUnit.process self1).
  - destruct Hbuilt as (-> & -> & _). reflexivity.
  - destruct Hbuilt as (-> & ->). reflexivity.
Qed.


(** ** ProcessingUnit: the joined flag and the order of the phases *)

Lemma raises_flag_bind {A B} (m : M (ProcessingUnit.t * Env) A)
    (k : A -> M (ProcessingUnit.t * Env) B) :
  preserves unjoined m -> (forall a, raises_flag_on_return (k a)) ->
  raises_flag_on_return (bind m k).
Proof.
  intros Hm Hk s Hs. specialize (Hm s Hs). unfold bind.
  destruct (m s) as [[a | x |] s']; simpl in *.
  - apply Hk. exact Hm.
  - exact Hm.
  - exact Hm.
Qed.

Lemma raises_flag_bind_get {B} (k : ProcessingUnit.t * Env -> M (ProcessingUnit.t * Env) B) :
  (forall s, raises_flag_on_return (k s)) -> raises_flag_on_return (bind get k).
Proof. intros H. apply raises_flag_bind; [apply preserves_get | exact H]. Qed.

Lemma raises_flag_last {A} (m : M (ProcessingUnit.t * Env) A) :
  preserves unjoined m ->
  raises_flag_on_return (bind m (fun _ => ProcessingUnit.set_joined true)).
Proof.
  intros Hm. apply raises_flag_bind; [exact Hm |].
  intros _ [u e] _. reflexivity.
Qed.

Section Unjoined.
Import ProcessingUnit.

Lemma unjoined_execute f kw : preserves unjoined (execute f kw).
Proof.
  intros [u e] H. unfold execute. destruct (f (view u) kw (world e)); exact H.
Qed.

Lemma unjoined_run_body ev f kw : preserves unjoined (run_body ev f kw).
Proof.
  unfold run_body. apply preserves_bind; [apply preserves_get | intros s].
  apply preserves_bind; [| intros _; apply unjoined_execute].
  intros [u e] H. exact H.
Qed.

Lemma unjoined_call ev f kw : preserves unjoined (call ev f kw).
Proof.
  unfold call. destruct (iscoroutinefunction f);
    [apply preserves_ret | apply unjoined_run_body].
Qed.

Lemma unjoined_await_or_call ev f kw : preserves unjoined (await_or_call ev f kw).
Proof.
  unfold await_or_call. destruct (iscoroutinefunction f); apply unjoined_run_body.
Qed.

Lemma unjoined_on_process {A} meth (m : M (SeparateProcess.t * Env) A) :
  preserves unjoined (on_process meth m).
Proof.
  intros [u e] H. unfold on_process. destruct (process u) as [sp |]; [| exact H].
  destruct (m (sp, e)) as [r [sp' e']]. exact H.
Qed.

Lemma unjoined_is_processing : preserves unjoined is_processing.
Proof.
  intros [u e] H. unfold is_processing. destruct (process u) as [sp |]; [| exact H].
  destruct (separate_process u); [| exact H].
  destruct (SeparateProcess.is_alive (sp, e)) as [[b | x |] [sp' e']]; exact H.
Qed.

Lemma unjoined_task_object : preserves unjoined task_object.
Proof.
  unfold task_object. apply preserves_bind; [apply unjoined_is_processing | intros b].
  destruct b; [apply preserves_raise |].
  apply preserves_bind; [apply preserves_get | intros s; apply preserves_ret].
Qed.

Lemma unjoined_the_task meth : preserves unjoined (the_task meth).
Proof.
  unfold the_task. apply preserves_bind; [apply unjoined_task_object | intros k].
  destruct k; [apply preserves_ret | apply preserves_raise].
Qed.

Lemma unjoined_host f : preserves unjoined (@host ProcessingUnit.t f).
Proof. intros [u e] H. exact H. Qed.

Lemma unjoined_remote_task m kw : preserves unjoined (remote_task m kw).
Proof.
  unfold remote_task. apply preserves_bind; [apply preserves_get | intros s].
  destruct (process (fst s)); [| apply preserves_raise].
  apply preserves_bind; [apply unjoined_task_object | intros k].
  apply preserves_bind; [apply unjoined_host | intros _].
  apply preserves_bind; [apply unjoined_on_process | intros _].
  apply unjoined_on_process.
Qed.

Lemma unjoined_run_through_warning c : preserves unjoined (run_through_warning c).
Proof.
  unfold run_through_warning. destruct c; [apply preserves_raise | apply unjoined_host].
Qed.

Lemma unjoined_task_phase (meth : string) (m : method) (awaited : bool)
    (pick : Task -> behaviour) kw :
  preserves unjoined
    (bind (the_task meth) (fun task => run_body (ETask m awaited) (pick task) kw)).
Proof.
  apply preserves_bind; [apply unjoined_the_task | intros task; apply unjoined_run_body].
Qed.

Lemma unjoined_closure_normal (category : t * Env -> option string) :
  preserves unjoined
    (bind get (fun self =>
       when (allow_closure (fst self))
         (bind (if separate_process (fst self) then
                  if await_closure (fst self)
                  then on_process "join" (SeparateProcess.join None)
                  else run_through_warning (category self)
                else ret tt)
            (fun _ => bind get (fun self =>
               call (EClosure false) (_execute_closure (fst self))
                 (unit_closure_kwargs (fst self))))))).
Proof.
  apply preserves_bind; [apply preserves_get | intros s].
  apply preserves_when. apply preserves_bind.
  - destruct (separate_process (fst s)); [| apply preserves_ret].
    destruct (await_closure (fst s));
      [apply unjoined_on_process | apply unjoined_run_through_warning].
  - intros _. apply preserves_bind; [apply preserves_get | intros s'].
    apply unjoined_call.
Qed.

Lemma unjoined_closure_coro polls : preserves unjoined (closure_coro polls).
Proof.
  unfold closure_coro. apply preserves_bind; [apply preserves_get | intros s].
  apply preserves_when. apply preserves_bind.
  - destruct (separate_process (fst s)); [| apply preserves_ret].
    destruct (await_closure (fst s)); [apply unjoined_on_process | apply unjoined_host].
  - intros _. apply preserves_bind; [apply preserves_get | intros s'].
    apply unjoined_await_or_call.
Qed.

Lemma raises_flag_after_reset (k : M (t * Env) unit) (u : t) (e : Env) :
  raises_flag_on_return k ->
  fst (bind (set_joined false) (fun _ => k) (u, e)) = Ok tt <->
  _joined (fst (snd (bind (set_joined false) (fun _ => k) (u, e)))) = true.
Proof.
  intros Hk. unfold bind, set_joined.
  specialize (Hk (with_joined false u, emit (ESetJoined false) e) eq_refl).
  destruct (k (with_joined false u, emit (ESetJoined false) e)) as [[[] | x |] [u' e']];
    cbn in *.
  - split; intros _; [exact Hk | reflexivity].
  - unfold unjoined in Hk. cbn in Hk. rewrite Hk. split; discriminate.
  - unfold unjoined in Hk. cbn in Hk. rewrite Hk. split; discriminate.
Qed.

End Unjoined.

(** X21. After [run_normal], [start_normal], [run_coro] or [start_coro], in
    either mode and whatever the callables and the task do, the joined flag
    is true exactly when the call returned normally: an exception anywhere
    between the two writes of the flag, or a wait that does not end, leaves
    the unit unjoined. *)
Theorem joined_flag_tells_completion (u : ProcessingUnit.t) (e : Env) (polls : nat)
    (s t k : gmap string pyval) (d : M (ProcessingUnit.t * Env) unit) :
  In d (phase_drivers polls s t k) ->
  fst (d (u, e)) = Ok tt <->
  ProcessingUnit._joined (fst (snd (d (u, e)))) = true.
Proof.
  intros Hd. unfold phase_drivers in Hd. simpl in Hd.
  destruct Hd as [<- | [<- | [<- | [<- | []]]]].
  - unfold ProcessingUnit.run_normal. apply raises_flag_after_reset.
    apply raises_flag_bind_get; intros s1.
    apply raises_flag_bind; [apply preserves_when, unjoined_call | intros _].
    apply raises_flag_bind_get; intros s2.
    apply raises_flag_bind.
    { destruct (ProcessingUnit.separate_process (fst s2));
        [apply unjoined_remote_task
        | apply (unjoined_task_phase "run" Run false ProcessingUnit.task_run)]. }
    intros _. apply raises_flag_last.
    apply (unjoined_closure_normal (fun self => ProcessingUnit.name (fst self))).
  - unfold ProcessingUnit.start_normal. apply raises_flag_after_reset.
    apply raises_flag_bind_get; intros s1.
    apply raises_flag_bind; [apply preserves_when, unjoined_call | intros _].
    apply raises_flag_bind_get; intros s2.
    apply raises_flag_bind.
    { destruct (ProcessingUnit.separate_process (fst s2));
        [apply unjoined_remote_task
        | apply (unjoined_task_phase "start" Start false ProcessingUnit.task_start)]. }
    intros _. apply raises_flag_last.
    apply (unjoined_closure_normal (fun _ => None)).
  - unfold ProcessingUnit.run_coro. apply raises_flag_after_reset.
    apply raises_flag_bind_get; intros s1.
    apply raises_flag_bind; [apply preserves_when, unjoined_await_or_call | intros _].
    apply raises_flag_bind_get; intros s2.
    apply raises_flag_last.
    destruct (ProcessingUnit.separate_process (fst s2)); [apply unjoined_remote_task |].
    apply preserves_bind; [apply unjoined_the_task | intros probe].
    apply preserves_bind; [| intros _; apply unjoined_closure_coro].
    destruct (ProcessingUnit.task_is_async probe).
    + apply (unjoined_task_phase "run_coro" Run true ProcessingUnit.task_run_coro).
    + apply (unjoined_task_phase "run" Run false ProcessingUnit.task_run).
  - unfold ProcessingUnit.start_coro. apply raises_flag_after_reset.
    apply raises_flag_bind_get; intros s1.
    apply raises_flag_bind; [apply preserves_when, unjoined_await_or_call | intros _].
    apply raises_flag_bind_get; intros s2.
    apply raises_flag_bind.
    { destruct (ProcessingUnit.separate_process (fst s2)); [apply unjoined_remote_task |].
      apply preserves_bind; [apply unjoined_the_task | intros probe].
      destruct (ProcessingUnit.task_is_async probe).
      + apply (unjoined_task_phase "start_coro" Start true ProcessingUnit.task_start_coro).
      + apply (unjoined_task_phase "start" Start false ProcessingUnit.task_start). }
    intros _. apply raises_flag_last. apply unjoined_closure_coro.
Qed.

Lemma joined_flag_tells_completion_witness :
  ProcessingUnit._joined
    (fst (snd (ProcessingUnit.run_normal ∅ ∅ ∅
                 (UnitScenario.local_unit, UnitScenario.local_host)))) = true.
Proof.
  apply (proj1 (joined_flag_tells_completion UnitScenario.local_unit
                  UnitScenario.local_host 0 ∅ ∅ ∅ (ProcessingUnit.run_normal ∅ ∅ ∅)
                  (or_introl eq_refl))).
  vm_compute. reflexivity.
Defined.

(** X18. [run] and [start] on an idle in-process unit whose phases all return: the
    flag is lowered, then setup (if allowed), the task and closure (if
    allowed) run once each in this order, each on the world the previous
    one left, each seeing the flag down; then the flag is raised and the
    call returns.  The task method is the coroutine one exactly when the
    task says so; nothing else changes on the unit or the host. *)
Theorem in_process_dispatch_runs_phases_in_order (m : method) (u : ProcessingUnit.t)
    (task : ProcessingUnit.Task) (e : Env) (polls : nat) (s t k : gmap string pyval)
    (w1 w2 w3 : World) :
  ProcessingUnit.separate_process u = false ->
  ProcessingUnit._task_object u = Some task ->
  ProcessingUnit._is_processing u = false ->
  optional_phase (ProcessingUnit.allow_setup u) (ProcessingUnit._execute_setup u)
    (dispatch_view u) (ProcessingUnit.unit_setup_kwargs u) (world e) = Ok w1 ->
  task_behaviour m task (dispatch_view u) (ProcessingUnit.dispatch_kwargs s t k) w1
    = Ok w2 ->
  optional_phase (ProcessingUnit.allow_closure u) (ProcessingUnit._execute_closure u)
    (dispatch_view u) (ProcessingUnit.unit_closure_kwargs u) w2 = Ok w3 ->
  dispatch m polls s t k (u, e)
  = (Ok tt,
     (ProcessingUnit.with_joined true u,
      mkEnv (clock e) (tick e) (spawns e) (created e) (warned e)
        (trace e
         ++ ESetJoined false
            :: (if ProcessingUnit.allow_setup u
                then [ESetup (ProcessingUnit.iscoroutinefunction
                                (ProcessingUnit._execute_setup u)) (dispatch_view u)]
                else [])
         ++ ETask m (ProcessingUnit.task_is_async task) (dispatch_view u)
            :: (if ProcessingUnit.allow_closure u
                then [EClosure (ProcessingUnit.iscoroutinefunction
                                  (ProcessingUnit._execute_closure u)) (dispatch_view u)]
                else [])
         ++ [ESetJoined true])%list
        w3)).
Proof.
  intros Hsep Htask Hidle Hs Ht Hc.
  destruct u as [nm skw ckw asu acl awc sep isp pr [sc sb] tobj [cc cb] jn].
  destruct task as [rf ta tr ts trc tsc tst trs].
  destruct e as [cl tk sps cr wn tr0 wd].
  unfold dispatch_view, optional_phase, task_behaviour in *.
  cbn [ProcessingUnit.separate_process ProcessingUnit._task_object
       ProcessingUnit.allow_setup ProcessingUnit.allow_closure
       ProcessingUnit._execute_setup ProcessingUnit._execute_closure
       ProcessingUnit.unit_setup_kwargs ProcessingUnit.unit_closure_kwargs
       ProcessingUnit._is_processing ProcessingUnit.iscoroutinefunction
       ProcessingUnit.body ProcessingUnit.task_is_async ProcessingUnit.task_run
       ProcessingUnit.task_start ProcessingUnit.task_run_coro
       ProcessingUnit.task_start_coro world clock tick spawns created warned trace]
    in *.
  subst sep tobj isp.
  set (kw := ProcessingUnit.dispatch_kwargs s t k) in *.
  assert (Hassoc : forall (a b c : list event), ((a ++ b) ++ c = a ++ b ++ c)%list)
    by (intros; symmetry; apply app_assoc).
  destruct m, sc, cc, ta, asu, acl, pr;
    try (injection Hs as <-); try (injection Hc as <-);
    unfold dispatch, ProcessingUnit.run, ProcessingUnit.start, ProcessingUnit.is_async,
      ProcessingUnit.run_coro, ProcessingUnit.start_coro, ProcessingUnit.run_normal,
      ProcessingUnit.start_normal, ProcessingUnit.closure_coro, ProcessingUnit.the_task,
      ProcessingUnit.task_object, ProcessingUnit.is_processing, ProcessingUnit.call,
      ProcessingUnit.await_or_call, ProcessingUnit.run_body, ProcessingUnit.execute,
      ProcessingUnit.set_joined, ProcessingUnit.view, bind, get, ret, when, host, emit;
    fold kw;
    cbn -[kw];
    rewrite ?Hs; cbn -[kw]; rewrite ?Ht; cbn -[kw]; rewrite ?Hc; cbn -[kw];
    rewrite ?Hassoc; reflexivity.
Qed.

Lemma in_process_dispatch_runs_phases_in_order_witness :
  fst (dispatch Run 5 ∅ ∅ ∅ (UnitScenario.local_unit, UnitScenario.local_host)) = Ok tt /\
  world (snd (snd (dispatch Run 5 ∅ ∅ ∅ (UnitScenario.local_unit, UnitScenario.local_host))))
  = UnitScenario.counted ["setup"; "task"; "closure"].
Proof.
  assert (E := in_process_dispatch_runs_phases_in_order Run UnitScenario.local_unit
                 UnitScenario.task UnitScenario.local_host 5 ∅ ∅ ∅
                 (UnitScenario.counted ["setup"])
                 (UnitScenario.counted ["setup"; "task"])
                 (UnitScenario.counted ["setup"; "task"; "closure"])).
  rewrite E.
  - split; reflexivity.
  - reflexivity.
  - reflexivity.
  - reflexivity.
  - vm_compute. reflexivity.
  - vm_compute. reflexivity.
  - vm_compute. reflexivity.
Defined.

(** ** ProcessingUnit: the first dispatch in a separate process *)

Lemma rebind_over_unstarted (sp : SeparateProcess.t) (p : Process.t) (a : list pyval)
    (obj : pyval) (meth : string) (kw : gmap string pyval) (e : Env) :
  SeparateProcess._process sp = Some p ->
  Process._args p = Some a ->
  exists q,
    SeparateProcess.target_object_method obj meth [] kw (sp, e)
      = (Ok tt, (SeparateProcess.set_process_field (Some q) sp,
                 emit ECreateProcess (set_created (S (created e)) e))) /\
    Process._popen q = None /\ Process._closed q = false.
Proof.
  intros Hp Ha. unfold SeparateProcess.target_object_method. cbv beta iota zeta.
  unfold SeparateProcess.create_process. rewrite Hp.
  unfold SeparateProcess.previous_attributes. rewrite Ha.
  rewrite nonempty_dict_insert. cbv beta iota zeta.
  eexists. split; [reflexivity |].
  match goal with
  | |- Process._popen (SeparateProcess.set_attributes ?tg ?n ?ar ?k ?d ?b) = _ /\ _ =>
      destruct (set_attributes_spec tg n ar k d b eq_refl eq_refl eq_refl)
        as (_ & _ & _ & _ & _ & -> & ->)
  end.
  split; reflexivity.
Qed.

Lemma start_of_unstarted (sp : SeparateProcess.t) (q : Process.t) (e : Env) :
  SeparateProcess._process sp = Some q ->
  Process._popen q = None -> Process._closed q = false ->
  spawn_succeeds e ->
  exists q' c,
    SeparateProcess.start (sp, e)
      = (Ok tt, (SeparateProcess.set_process_field (Some q') sp,
                 emit (EProcessStart true) (set_spawns (tl (spawns e)) e))) /\
    Process._popen q' = Some c /\ Process._closed q' = false /\ Process._args q' = None.
Proof.
  intros Hp Hpo Hcl Hspawn.
  unfold SeparateProcess.start, try_except, SeparateProcess.process_start, bind,
    SeparateProcess.the_process.
  rewrite Hp. unfold Process.start. rewrite Hcl, Hpo.
  destruct e as [cl tk sps cr wn tr wd]. unfold spawn_succeeds in Hspawn.
  cbn [spawns] in *.
  destruct sps as [| [| life] rest].
  - eexists. eexists. split; [reflexivity |]. repeat split.
  - exfalso. exact (Hspawn rest eq_refl).
  - eexists. eexists. split; [reflexivity |]. repeat split.
Qed.

Lemma unstarted_remote_task (m : method) (kw : gmap string pyval)
    (u : ProcessingUnit.t) (sp : SeparateProcess.t) (e : Env) :
  ProcessingUnit.separate_process u = true ->
  ProcessingUnit.process u = Some sp ->
  wraps_unstarted sp ->
  spawn_succeeds e ->
  exists sp' c,
    ProcessingUnit.remote_task m kw (u, e)
      = (Ok tt, (launched_with sp' u, launched_host m e)) /\
    wraps_launched sp' c.
Proof.
  intros Hs Hp (p & a & Hpp & Hcl & Hpo & Ha) Hspawn.
  assert (Hip : ProcessingUnit.is_processing (u, e)
                = (Ok false,
                   (ProcessingUnit.with_is_processing false
                      (ProcessingUnit.with_process (Some sp) u), e))).
  { unfold ProcessingUnit.is_processing. rewrite Hp, Hs.
    unfold SeparateProcess.is_alive. rewrite Hpp. unfold Process.is_alive.
    rewrite Hcl, Hpo. reflexivity. }
  destruct (rebind_over_unstarted sp p a
              (ProcessingUnit.task_value (ProcessingUnit._task_object u))
              (method_name m) kw (emit (ETargetMethod m) e) Hpp Ha)
    as (q & Hq & Hqpo & Hqcl).
  destruct (start_of_unstarted (SeparateProcess.set_process_field (Some q) sp) q
              (emit ECreateProcess
                 (set_created (S (created (emit (ETargetMethod m) e)))
                    (emit (ETargetMethod m) e)))
              eq_refl Hqpo Hqcl)
    as (q' & c & Hst & Hc1 & Hc2 & Hc3).
  { intros rest. destruct e. exact (Hspawn rest). }
  exists (SeparateProcess.set_process_field (Some q')
            (SeparateProcess.set_process_field (Some q) sp)), c.
  split.
  - unfold ProcessingUnit.remote_task. unfold bind at 1. unfold get. cbn [fst].
    rewrite Hp. unfold ProcessingUnit.task_object.
    unfold bind at 1. unfold bind at 1. rewrite Hip.
    unfold bind at 1. unfold get, ret. cbv beta iota zeta. cbn [fst].
    unfold bind at 1. unfold host. cbv beta iota zeta.
    unfold bind at 1. unfold ProcessingUnit.on_process at 1.
    cbn [ProcessingUnit.process ProcessingUnit.with_is_processing
         ProcessingUnit.with_process ProcessingUnit._task_object].
    rewrite Hq.
    unfold ProcessingUnit.on_process.
    cbn [ProcessingUnit.process ProcessingUnit.with_is_processing
         ProcessingUnit.with_process].
    rewrite Hst.
    unfold launched_with, launched_host.
    destruct u, e.
    unfold ProcessingUnit.with_process, ProcessingUnit.with_is_processing, emit,
      set_spawns, set_created.
    cbn. rewrite <- ?app_assoc. reflexivity.
  - exists q'. repeat split; assumption.
Qed.

Ltac unfold_dispatch :=
  unfold dispatch, ProcessingUnit.run, ProcessingUnit.start, ProcessingUnit.is_async,
    ProcessingUnit.run_coro, ProcessingUnit.start_coro, ProcessingUnit.run_normal,
    ProcessingUnit.start_normal, ProcessingUnit.closure_coro,
    ProcessingUnit.run_through_warning, ProcessingUnit.call,
    ProcessingUnit.await_or_call, ProcessingUnit.run_body, ProcessingUnit.execute,
    ProcessingUnit.set_joined, ProcessingUnit.view, bind, get, ret, raise, when, host.

Ltac unfold_setters :=
  unfold launched_with, launched_host, ProcessingUnit.with_joined,
    ProcessingUnit.with_process, ProcessingUnit.with_is_processing,
    emit, warn, set_world.

(** X19. The first [start] of a unit in separate-process mode, with
    [await_closure] false as the constructor leaves it: the flag is
    lowered, setup runs if allowed, the task's [start] method is bound as
    the target of a new process and the process is started; the closure,
    if allowed, then runs at once, after a warning that the child may
    still be running, on the world the setup left; the flag is raised and
    the call returns, the unit holding a launched process. *)
Theorem first_start_in_separate_process (u : ProcessingUnit.t) (sp : SeparateProcess.t)
    (e : Env) (polls : nat) (s t k : gmap string pyval) (w1 w3 : World) :
  ProcessingUnit.separate_process u = true ->
  ProcessingUnit.process u = Some sp ->
  wraps_unstarted sp ->
  ProcessingUnit.await_closure u = false ->
  spawn_succeeds e ->
  optional_phase (ProcessingUnit.allow_setup u) (ProcessingUnit._execute_setup u)
    (dispatch_view u) (ProcessingUnit.unit_setup_kwargs u) (world e) = Ok w1 ->
  optional_phase (ProcessingUnit.allow_closure u) (ProcessingUnit._execute_closure u)
    (mkView false false) (ProcessingUnit.unit_closure_kwargs u) w1 = Ok w3 ->
  exists sp' c,
    wraps_launched sp' c /\
    ProcessingUnit.start polls s t k (u, e)
    = (Ok tt,
       (ProcessingUnit.with_joined true (launched_with sp' u),
        mkEnv (clock e) (tick e) (tl (spawns e)) (S (created e))
          (warned e ++ (if ProcessingUnit.allow_closure u then [RunThrough] else []))%list
          (trace e
           ++ ESetJoined false
              :: (if ProcessingUnit.allow_setup u
                  then [ESetup (ProcessingUnit.iscoroutinefunction
                                  (ProcessingUnit._execute_setup u)) (dispatch_view u)]
                  else [])
           ++ [ETargetMethod Start; ECreateProcess; EProcessStart true]
           ++ (if ProcessingUnit.allow_closure u
               then [EClosure (ProcessingUnit.iscoroutinefunction
                                 (ProcessingUnit._execute_closure u)) (mkView false false)]
               else [])
           ++ [ESetJoined true])%list
          w3)).
Proof.
  intros Hsep Hp Hw Hawait Hspawn Hs Hc.
  destruct u as [nm skw ckw asu acl awc sep isp pr [sc sb] tobj [cc cb] jn].
  destruct e as [cl tk sps cr wn tr0 wd].
  unfold dispatch_view, optional_phase in *.
  cbn [ProcessingUnit.separate_process ProcessingUnit.process
       ProcessingUnit.await_closure
       ProcessingUnit.allow_setup ProcessingUnit.allow_closure
       ProcessingUnit._execute_setup ProcessingUnit._execute_closure
       ProcessingUnit.unit_setup_kwargs ProcessingUnit.unit_closure_kwargs
       ProcessingUnit._is_processing ProcessingUnit.iscoroutinefunction
       ProcessingUnit.body world clock tick spawns created warned trace] in *.
  subst sep pr awc.
  set (kw := ProcessingUnit.dispatch_kwargs s t k) in *.
  destruct sc, cc, asu, acl;
    try (injection Hs as <-); try (injection Hc as <-);
    unfold_dispatch; fold kw;
    cbn -[kw ProcessingUnit.remote_task];
    rewrite ?Hs; cbn -[kw ProcessingUnit.remote_task];
    (match goal with
     | |- context [ProcessingUnit.remote_task ?m ?kw0 (?u0, ?e0)] =>
         destruct (unstarted_remote_task m kw0 u0 sp e0 eq_refl eq_refl Hw)
           as (sp' & c & E & Hl); [intros rest; exact (Hspawn rest) |]
     end);
    exists sp', c; (split; [exact Hl |]);
    rewrite E; unfold_setters; cbn -[kw];
    rewrite ?Hc; cbn -[kw]; rewrite <- ?app_assoc, ?app_nil_r; reflexivity.
Qed.

Lemma first_start_in_separate_process_witness :
  exists sp' c,
    wraps_launched sp' c /\
    fst (ProcessingUnit.start 5 ∅ ∅ ∅
           (UnitScenario.remote_plain_unit, UnitScenario.remote_plain_host)) = Ok tt /\
    world (snd (snd (ProcessingUnit.start 5 ∅ ∅ ∅
                       (UnitScenario.remote_plain_unit, UnitScenario.remote_plain_host))))
    = UnitScenario.counted ["setup"; "closure"].
Proof.
  destruct (first_start_in_separate_process UnitScenario.remote_plain_unit
              (default Scenario.blank (ProcessingUnit.process UnitScenario.remote_plain_unit))
              UnitScenario.remote_plain_host 5 ∅ ∅ ∅
              (UnitScenario.counted ["setup"]) (UnitScenario.counted ["setup"; "closure"]))
    as (sp' & c & Hl & E).
  - reflexivity.
  - vm_compute. reflexivity.
  - eexists. eexists. vm_compute. repeat split; reflexivity.
  - reflexivity.
  - intros rest. vm_compute. discriminate.
  - vm_compute. reflexivity.
  - vm_compute. reflexivity.
  - exists sp', c. split; [exact Hl |]. rewrite E. split; reflexivity.
Defined.

(** X20. The first [run] of a unit in separate-process mode that allows a
    closure, with [await_closure] false: when a callable is a coroutine
    function the process is launched and the call returns with the flag
    raised, and when both are plain and the unit has a name the call raises
    [TypeError] out of its warning with the flag left down; either way the
    closure never runs. *)
Theorem first_run_in_separate_process_skips_closure (u : ProcessingUnit.t)
    (sp : SeparateProcess.t) (e : Env) (polls : nat) (s t k : gmap string pyval)
    (w1 : World) :
  ProcessingUnit.separate_process u = true ->
  ProcessingUnit.process u = Some sp ->
  wraps_unstarted sp ->
  ProcessingUnit.await_closure u = false ->
  spawn_succeeds e ->
  optional_phase (ProcessingUnit.allow_setup u) (ProcessingUnit._execute_setup u)
    (dispatch_view u) (ProcessingUnit.unit_setup_kwargs u) (world e) = Ok w1 ->
  ProcessingUnit.allow_closure u = true ->
  (cooperative u = false -> ProcessingUnit.name u <> None) ->
  exists sp' c,
    wraps_launched sp' c /\
    ProcessingUnit.run polls s t k (u, e)
    = ((if cooperative u then Ok tt
        else Raise (TypeError "category must be a Warning subclass, not 'str'")),
       (ProcessingUnit.with_joined (cooperative u) (launched_with sp' u),
        mkEnv (clock e) (tick e) (tl (spawns e)) (S (created e)) (warned e)
          (trace e
           ++ ESetJoined false
              :: (if ProcessingUnit.allow_setup u
                  then [ESetup (ProcessingUnit.iscoroutinefunction
                                  (ProcessingUnit._execute_setup u)) (dispatch_view u)]
                  else [])
           ++ [ETargetMethod Run; ECreateProcess; EProcessStart true]
           ++ (if cooperative u then [ESetJoined true] else []))%list
          w1)).
Proof.
  intros Hsep Hp Hw Hawait Hspawn Hs Hacl Hname.
  destruct u as [nm skw ckw asu acl awc sep isp pr [sc sb] tobj [cc cb] jn].
  destruct e as [cl tk sps cr wn tr0 wd].
  unfold dispatch_view, optional_phase, cooperative in *.
  cbn [ProcessingUnit.separate_process ProcessingUnit.process
       ProcessingUnit.await_closure ProcessingUnit.name
       ProcessingUnit.allow_setup ProcessingUnit.allow_closure
       ProcessingUnit._execute_setup ProcessingUnit._execute_closure
       ProcessingUnit.unit_setup_kwargs ProcessingUnit.unit_closure_kwargs
       ProcessingUnit._is_processing ProcessingUnit.iscoroutinefunction
       ProcessingUnit.body world clock tick spawns created warned trace] in *.
  subst sep pr awc acl.
  set (kw := ProcessingUnit.dispatch_kwargs s t k) in *.
  assert (Hnm : sc || cc = false -> exists n, nm = Some n).
  { intros H. destruct nm as [n |]; [exists n; reflexivity |].
    exfalso. exact (Hname H eq_refl). }
  clear Hname.
  destruct sc, cc, asu;
    try (destruct (Hnm eq_refl) as [n ->]);
    try (injection Hs as <-);
    unfold_dispatch; fold kw;
    cbn -[kw ProcessingUnit.remote_task];
    rewrite ?Hs; cbn -[kw ProcessingUnit.remote_task];
    (match goal with
     | |- context [ProcessingUnit.remote_task ?m ?kw0 (?u0, ?e0)] =>
         destruct (unstarted_remote_task m kw0 u0 sp e0 eq_refl eq_refl Hw)
           as (sp' & c & E & Hl); [intros rest; exact (Hspawn rest) |]
     end);
    exists sp', c; (split; [exact Hl |]);
    rewrite E; unfold_setters; cbn -[kw];
    rewrite <- ?app_assoc, ?app_nil_r; reflexivity.
Qed.

Lemma first_run_in_separate_process_skips_closure_witness :
  exists sp' c,
    wraps_launched sp' c /\
    fst (ProcessingUnit.run 5 ∅ ∅ ∅ (UnitScenario.remote_unit, UnitScenario.remote_host))
      = Ok tt /\
    world (snd (snd (ProcessingUnit.run 5 ∅ ∅ ∅
                       (UnitScenario.remote_unit, UnitScenario.remote_host))))
    = UnitScenario.counted ["setup"].
Proof.
  destruct (first_run_in_separate_process_skips_closure UnitScenario.remote_unit
              (default Scenario.blank (ProcessingUnit.process UnitScenario.remote_unit))
              UnitScenario.remote_host 5 ∅ ∅ ∅ (UnitScenario.counted ["setup"]))
    as (sp' & c & Hl & E).
  - reflexivity.
  - vm_compute. reflexivity.
  - eexists. eexists. vm_compute. repeat split; reflexivity.
  - reflexivity.
  - intros rest. vm_compute. discriminate.
  - vm_compute. reflexivity.
  - reflexivity.
  - vm_compute. discriminate.
  - exists sp', c. split; [exact Hl |]. rewrite E. split; reflexivity.
Defined.

(** ** ProcessingUnit: stopping *)

(** X26. [stop] with a timeout on a unit in separate-process mode whose
    dispatch has returned while the child keeps running: the task object on
    the caller's side is told to stop, without arguments, then the handle is
    joined for the whole timeout, which ends with one timeout warning; the
    call returns normally and the child is still alive, since [stop] never
    terminates it. *)
Theorem stop_leaves_the_child_running (u : ProcessingUnit.t) (sp : SeparateProcess.t)
    (c : Process.Popen) (task : ProcessingUnit.Task) (e : Env) (polls : nat) (T : Z)
    (w : World) :
  ProcessingUnit.separate_process u = true ->
  ProcessingUnit.process u = Some sp ->
  wraps_started sp c ->
  Process.exits_at c = None ->
  ProcessingUnit._joined u = true ->
  ProcessingUnit._task_object u = Some task ->
  ProcessingUnit.task_stop task None (world e) = Ok w ->
  0 <= T ->
  exists u' e',
    ProcessingUnit.stop polls true (Some T) (u, e) = (Ok tt, (u', e')) /\
    trace e' = (trace e ++ [ETaskStop None; EHandleJoin (Some T)])%list /\
    warned e' = (warned e ++ [timeout_warning])%list /\
    clock e' = clock e + T /\
    world e' = w /\
    fst (ProcessingUnit.is_processing (u', e')) = Ok true.
Proof.
  intros Hsep Hp (p & Hpp & Hcl & Hpo) Hex Hj Htask Hstop HT.
  assert (Hpoll : forall now, Process.poll c now = None).
  { intros now. unfold Process.poll. rewrite Hex. reflexivity. }
  assert (Hloop : forall s, ProcessingUnit._joined (fst s) = true ->
            ProcessingUnit.join_loop polls (clock e) (Some T) s = (Ok true, s)).
  { intros s Hs. destruct polls; cbn [ProcessingUnit.join_loop];
      unfold bind, get; rewrite Hs; reflexivity. }
  eexists. eexists. split.
  - unfold ProcessingUnit.stop. unfold bind at 1.
    unfold ProcessingUnit.stop_task. rewrite Htask, Hstop.
    unfold when, ProcessingUnit.join. unfold bind at 1. unfold perf_counter at 1.
    cbn [clock set_world emit].
    unfold bind at 1. rewrite Hloop by exact Hj.
    unfold bind at 1. unfold perf_counter. cbn [clock set_world emit].
    unfold bind at 1. unfold get. cbn [fst]. rewrite Hsep.
    unfold ProcessingUnit.remaining. cbn [fmap option_fmap option_map].
    replace (T - (clock e - clock e)) with T by lia.
    unfold when, ProcessingUnit.on_process. cbv beta iota zeta. rewrite Hp.
    unfold SeparateProcess.join. unfold bind at 1. unfold host.
    unfold bind at 1. unfold SeparateProcess.the_process. cbv beta iota zeta.
    rewrite Hpp.
    unfold bind at 1. unfold Process.join. rewrite Hcl, Hpo, Hpoll, Hex.
    unfold bind at 1. unfold SeparateProcess.process_exitcode, bind.
    unfold SeparateProcess.the_process. rewrite Hpp.
    unfold Process.exitcode. rewrite Hcl, Hpo, Hpoll.
    reflexivity.
  - cbn. rewrite <- ?app_assoc. repeat (split; [first [reflexivity | lia] |]).
    unfold ProcessingUnit.is_processing. cbn. rewrite Hsep.
    unfold SeparateProcess.is_alive. rewrite Hpp. unfold Process.is_alive.
    rewrite Hcl, Hpo, Hpoll. reflexivity.
Qed.

Lemma stop_leaves_the_child_running_witness :
  exists u' e',
    ProcessingUnit.stop 0 true (Some 3) (UnitScenario.busy_unit, UnitScenario.busy_host)
      = (Ok tt, (u', e')) /\
    fst (ProcessingUnit.is_processing (u', e')) = Ok true.
Proof.
  destruct (stop_leaves_the_child_running UnitScenario.busy_unit UnitScenario.busy_handle
              (Process.mkPopen None 0) UnitScenario.task UnitScenario.busy_host 0 3
              (world UnitScenario.busy_host))
    as (u' & e' & H1 & _ & _ & _ & _ & H2).
  - vm_compute. reflexivity.
  - vm_compute. reflexivity.
  - exists UnitScenario.busy_process. vm_compute. repeat split; reflexivity.
  - reflexivity.
  - vm_compute. reflexivity.
  - vm_compute. reflexivity.
  - vm_compute. reflexivity.
  - lia.
  - exists u', e'. split; assumption.
Defined.
